(** * INSAT COG Data Explorer: the client-side orchestration of the frontend

    A shallow embedding of the React components of [web/frontend/src]:
    the shared [VisualizationContext], the [SpectralBands] catalog panel,
    the [BandManipulations] arithmetic panel and the [Visualization] display
    panel.  Handlers are written as programs of a small resumption monad
    whose suspension points are the [await]s of the source; they are run
    either in isolation against a backend, or interleaved by an event loop. *)

From Stdlib Require Import String Ascii List Bool Arith ZArith Lia.
From Stdlib Require Import DecimalString DecimalNat.
Import ListNotations.
Open Scope string_scope.

Set Implicit Arguments.
Set Warnings "-register-all".

(** ** JavaScript values that cross the HTTP boundary *)

(** What [response.data] can hold: parsed JSON, [undefined], or a [Blob]
    (for requests issued with [responseType: 'blob']). *)
Inductive jsval : Type :=
| JUndefined
| JNull
| JBool (b : bool)
| JNum (n : Z)
| JStr (s : string)
| JArr (items : list jsval)
| JObj (fields : list (string * jsval))
| JBlob (content : string).

(** JavaScript truthiness, as used by [if (v)], [!v], [a && b], [a || b]. *)
Definition truthy (v : jsval) : bool :=
  match v with
  | JUndefined | JNull => false
  | JBool b => b
  | JNum n => negb (Z.eqb n 0)
  | JStr s => negb (String.eqb s "")
  | JArr _ | JObj _ | JBlob _ => true
  end.

(** [a || b] *)
Definition js_or (a b : jsval) : jsval := if truthy a then a else b.

Definition nullish (v : jsval) : bool :=
  match v with
  | JUndefined | JNull => true
  | _ => false
  end.

Fixpoint assoc (name : string) (fields : list (string * jsval)) : jsval :=
  match fields with
  | [] => JUndefined
  | (k, v) :: rest => if String.eqb k name then v else assoc name rest
  end.

(** Reading a property of a value that is neither [undefined] nor [null].
    Only JSON field names that no built-in prototype defines are read by the
    components ([status], [data], [visualization], [detail]), so every
    non-object yields [undefined]. *)
Definition field (v : jsval) (name : string) : jsval :=
  match v with
  | JObj fields => assoc name fields
  | _ => JUndefined
  end.

(** [v?.name] *)
Definition opt_field (v : jsval) (name : string) : jsval :=
  if nullish v then JUndefined else field v name.

(** [a === 'literal'] *)
Definition strict_eq_str (v : jsval) (lit : string) : bool :=
  match v with
  | JStr s => String.eqb s lit
  | _ => false
  end.

(** ** Thrown values *)

(** An axios response object; only its [data] is read. *)
Record response : Type := mkResponse { data : jsval }.

(** A thrown [Error]: its [message], and for an axios error of a request the
    server answered, the [response] it carries. *)
Record exn : Type := mkExn {
  message : string;
  err_response : option response
}.

Definition Error (msg : string) : exn := mkExn msg None.

Definition type_name (v : jsval) : string :=
  match v with
  | JNull => "null"
  | _ => "undefined"
  end.

(** The [TypeError] of reading a property of [undefined] or [null]
    (the wording is the engine's). *)
Definition TypeError_read (v : jsval) (name : string) : exn :=
  Error ("Cannot read properties of " ++ type_name v ++ " (reading '" ++ name ++ "')").

(** ** Requests *)

Inductive http_method : Type := GET | POST.

Inductive response_type : Type := json | blob.

Record request : Type := mkRequest {
  method : http_method;
  url : string;
  body : jsval;
  responseType : response_type
}.

Definition outcome : Type := (exn + response)%type.

Definition axios_get (u : string) : request := mkRequest GET u JUndefined json.
Definition axios_get_blob (u : string) : request := mkRequest GET u JUndefined blob.
Definition axios_post (u : string) (payload : jsval) : request := mkRequest POST u payload json.

(** ** Shared and local component state *)

Inductive VisualizationKind : Type := band | manipulation | none.

(** The value of [VisualizationContext].  [visualizationUrl] is declared
    [string]; at run time it holds whatever [response.data.data.visualization]
    was, so it is kept as a [jsval]. *)
Record VisualizationContextType : Type := mkContext {
  visualizationUrl : jsval;
  visualizationType : VisualizationKind;
  selectedBand : string
}.

Inductive toast_status : Type := success | warning | error.

Record toast_options : Type := mkToast {
  title : string;
  description : jsval;
  status : toast_status;
  duration : Z;
  isClosable : bool
}.

Record world : Type := mkWorld {
  context : VisualizationContextType;
  (* SpectralBands *)
  bands : jsval;
  sb_selectedBand : string;
  (* BandManipulations *)
  bm_loading : bool;
  (* Visualization *)
  imageUrl : string;
  loading : bool;
  vis_error : string;
  (* the page *)
  toasts : list toast_options;
  objectURLs : list string
}.

(** [useState] initial values of the provider and of the three panels. *)
Definition initial_context : VisualizationContextType :=
  mkContext (JStr "") none "".

Definition initial_world : world :=
  mkWorld initial_context (JObj []) "" false "" false "" [] [].

(** ** Synchronous effects *)

Inductive action : Type :=
| SetVisualizationUrl (u : jsval)
| SetVisualizationType (k : VisualizationKind)
| SetContextBand (b : string)
| SetBands (v : jsval)
| SetSelectedBand (b : string)
| SetBmLoading (b : bool)
| SetImageUrl (u : string)
| SetLoading (b : bool)
| SetError (e : string)
| Toast (t : toast_options)
| ConsoleLog (args : list jsval)
| ConsoleError (label : string) (e : exn).

Definition with_context (f : VisualizationContextType -> VisualizationContextType)
  (w : world) : world :=
  mkWorld (f (context w)) (bands w) (sb_selectedBand w) (bm_loading w)
          (imageUrl w) (loading w) (vis_error w) (toasts w) (objectURLs w).

Definition apply_action (a : action) (w : world) : world :=
  match a with
  | SetVisualizationUrl u =>
      with_context (fun c => mkContext u (visualizationType c) (selectedBand c)) w
  | SetVisualizationType k =>
      with_context (fun c => mkContext (visualizationUrl c) k (selectedBand c)) w
  | SetContextBand b =>
      with_context (fun c => mkContext (visualizationUrl c) (visualizationType c) b) w
  | SetBands v =>
      mkWorld (context w) v (sb_selectedBand w) (bm_loading w)
              (imageUrl w) (loading w) (vis_error w) (toasts w) (objectURLs w)
  | SetSelectedBand b =>
      mkWorld (context w) (bands w) b (bm_loading w)
              (imageUrl w) (loading w) (vis_error w) (toasts w) (objectURLs w)
  | SetBmLoading b =>
      mkWorld (context w) (bands w) (sb_selectedBand w) b
              (imageUrl w) (loading w) (vis_error w) (toasts w) (objectURLs w)
  | SetImageUrl u =>
      mkWorld (context w) (bands w) (sb_selectedBand w) (bm_loading w)
              u (loading w) (vis_error w) (toasts w) (objectURLs w)
  | SetLoading b =>
      mkWorld (context w) (bands w) (sb_selectedBand w) (bm_loading w)
              (imageUrl w) b (vis_error w) (toasts w) (objectURLs w)
  | SetError e =>
      mkWorld (context w) (bands w) (sb_selectedBand w) (bm_loading w)
              (imageUrl w) (loading w) e (toasts w) (objectURLs w)
  | Toast t =>
      mkWorld (context w) (bands w) (sb_selectedBand w) (bm_loading w)
              (imageUrl w) (loading w) (vis_error w) (toasts w ++ [t]) (objectURLs w)
  | ConsoleLog _ | ConsoleError _ _ => w
  end.

(** [URL.createObjectURL(b)]: registers the blob's content and returns a fresh
    [blob:] URL naming it (the n-th handle of the page is [blob:n]). *)
Definition object_url (n : nat) : string :=
  "blob:" ++ NilEmpty.string_of_uint (Nat.to_uint n).

Definition register_blob (content : string) (w : world) : string * world :=
  (object_url (length (objectURLs w)),
   mkWorld (context w) (bands w) (sb_selectedBand w) (bm_loading w)
           (imageUrl w) (loading w) (vis_error w) (toasts w)
           (objectURLs w ++ [content])).

(** ** Async functions as resumptions *)

Inductive prog (A : Type) : Type :=
| Ret (a : A)
| Throw (e : exn)
| Act (a : action) (k : prog A)
| NewObjectURL (content : string) (k : string -> prog A)
| Await (r : request) (k : outcome -> prog A).

Arguments Ret {A} a.
Arguments Throw {A} e.
Arguments Act {A} a k.
Arguments NewObjectURL {A} content k.
Arguments Await {A} r k.

Fixpoint bind {A B : Type} (p : prog A) (f : A -> prog B) : prog B :=
  match p with
  | Ret a => f a
  | Throw e => Throw e
  | Act a k => Act a (bind k f)
  | NewObjectURL c k => NewObjectURL c (fun u => bind (k u) f)
  | Await r k => Await r (fun o => bind (k o) f)
  end.

Notation "x <- p ;; q" := (bind p (fun x => q))
  (at level 61, p at next level, right associativity).
Notation "p ;; q" := (bind p (fun _ => q))
  (at level 61, right associativity).

(** [try { p } catch (e) { h e }] *)
Fixpoint try_catch {A : Type} (p : prog A) (h : exn -> prog A) : prog A :=
  match p with
  | Ret a => Ret a
  | Throw e => h e
  | Act a k => Act a (try_catch k h)
  | NewObjectURL c k => NewObjectURL c (fun u => try_catch (k u) h)
  | Await r k => Await r (fun o => try_catch (k o) h)
  end.

(** [try { p } finally { f }] *)
Fixpoint finally {A : Type} (p : prog A) (f : prog unit) : prog A :=
  match p with
  | Ret a => f ;; Ret a
  | Throw e => f ;; Throw e
  | Act a k => Act a (finally k f)
  | NewObjectURL c k => NewObjectURL c (fun u => finally (k u) f)
  | Await r k => Await r (fun o => finally (k o) f)
  end.

Definition act (a : action) : prog unit := Act a (Ret tt).

(** [await axios(...)]: resumes with the response, or throws the rejection. *)
Definition await (r : request) : prog response :=
  Await r (fun o => match o with
                    | inl e => Throw e
                    | inr resp => Ret resp
                    end).

(** [v.name], which throws on [undefined] and [null]. *)
Definition get (v : jsval) (name : string) : prog jsval :=
  if nullish v then Throw (TypeError_read v name) else Ret (field v name).

(** [URL.createObjectURL(v)] *)
Definition createObjectURL (v : jsval) : prog string :=
  match v with
  | JBlob content => NewObjectURL content (fun u => Ret u)
  | _ => Throw (Error "Failed to execute 'createObjectURL' on 'URL': Overload resolution failed.")
  end.

(** ** Running a program in isolation *)

(** The backend answers a request knowing the requests it has served. *)
Definition backend : Type := list request -> request -> outcome.

Fixpoint run {A : Type} (be : backend) (p : prog A) (w : world) (served : list request)
  : world * list request * (exn + A) :=
  match p with
  | Ret a => (w, served, inr a)
  | Throw e => (w, served, inl e)
  | Act a k => run be k (apply_action a w) served
  | NewObjectURL c k =>
      let (u, w') := register_blob c w in run be (k u) w' served
  | Await r k => run be (k (be served r)) w (served ++ [r])
  end.

(** ** Running a program until it suspends *)

Inductive stop (A : Type) : Type :=
| Finished (a : A)
| Raised (e : exn)
| Blocked (r : request) (k : outcome -> prog A).

Arguments Finished {A} a.
Arguments Raised {A} e.
Arguments Blocked {A} r k.

Fixpoint exec {A : Type} (p : prog A) (w : world) : world * stop A :=
  match p with
  | Ret a => (w, Finished a)
  | Throw e => (w, Raised e)
  | Act a k => exec k (apply_action a w)
  | NewObjectURL c k => let (u, w') := register_blob c w in exec (k u) w'
  | Await r k => (w, Blocked r k)
  end.

(** The requests both the catalog panel and the arithmetic panel issue. *)
Definition catalog_request : request :=
  axios_get "http://localhost:8000/api/bands".

Definition convert_request (bandName : string) : request :=
  axios_post ("http://localhost:8000/api/convert/" ++ bandName) JUndefined.

(** ** contexts/VisualizationContext.tsx *)

Module VisualizationContext.

(** [useVisualization]: the context value inside a provider, a thrown
    [Error] outside one. *)
Definition useVisualization (provided : option VisualizationContextType)
  : exn + VisualizationContextType :=
  match provided with
  | None => inl (Error "useVisualization must be used within a VisualizationProvider")
  | Some c => inr c
  end.

End VisualizationContext.

(** ** components/SpectralBands.tsx *)

Module SpectralBands.

Definition fetch_failed_toast : toast_options :=
  mkToast "Error fetching bands" JUndefined error 3000 true.

Definition converted_toast : toast_options :=
  mkToast "Band converted successfully" JUndefined success 2000 true.

Definition convert_failed_toast : toast_options :=
  mkToast "Error converting band" JUndefined error 3000 true.

(** The effect run on mount. *)
Definition fetchBands : prog unit :=
  try_catch
    (response <- await catalog_request ;;
     d <- get (data response) "data" ;;
     act (SetBands d))
    (fun _ => act (Toast fetch_failed_toast)).

Definition handleBandSelect (bandName : string) : prog unit :=
  try_catch
    (act (SetSelectedBand bandName) ;;
     act (SetContextBand bandName) ;;
     _ <- await (convert_request bandName) ;;
     try_catch
       (act (SetVisualizationType band) ;;
        act (SetVisualizationUrl (JStr ("/api/visualize/" ++ bandName))))
       (fun visualizationError =>
          act (ConsoleError "Error setting visualization:" visualizationError)) ;;
     act (Toast converted_toast))
    (fun _ => act (Toast convert_failed_toast)).

End SpectralBands.

(** ** components/BandManipulations.tsx *)

Module BandManipulations.

Definition select_both_toast : toast_options :=
  mkToast "Please select both bands" JUndefined warning 3000 true.

Definition completed_toast : toast_options :=
  mkToast "Calculation completed" JUndefined success 2000 true.

(** [error.response?.data?.detail]: the detail the backend sent with the
    response that made the request reject. *)
Definition backend_detail (e : exn) : jsval :=
  match err_response e with
  | None => JUndefined
  | Some r => opt_field (data r) "detail"
  end.

(** [error.response?.data?.detail || error.message] *)
Definition error_description (e : exn) : jsval :=
  js_or (backend_detail e) (JStr (message e)).

Definition failed_toast (e : exn) : toast_options :=
  mkToast "Error performing calculation" (error_description e) error 3000 true.

Definition endpoint (operation : string) : string :=
  if String.eqb operation "ratio"
  then "/api/manipulate/ratio"
  else "/api/manipulate/difference".

Definition payload (operation band1 band2 : string) : jsval :=
  if String.eqb operation "ratio"
  then JObj [("numerator", JStr band1); ("denominator", JStr band2)]
  else JObj [("band1", JStr band1); ("band2", JStr band2)].

Definition manipulate_request (operation band1 band2 : string) : request :=
  axios_post ("http://localhost:8000" ++ endpoint operation)
             (payload operation band1 band2).

(** [handleCalculate], closed over the panel's [operation], [band1] and
    [band2] at the time of the click. *)
Definition handleCalculate (operation band1 band2 : string) : prog unit :=
  if negb (truthy (JStr band1)) || negb (truthy (JStr band2)) then
    act (Toast select_both_toast)
  else
    act (SetBmLoading true) ;;
    finally
      (try_catch
         (act (ConsoleLog [JStr ("Converting band 1: " ++ band1)]) ;;
          _ <- await (convert_request band1) ;;
          act (ConsoleLog [JStr ("Converting band 2: " ++ band2)]) ;;
          _ <- await (convert_request band2) ;;
          act (ConsoleLog [JStr "Checking available COGs..."]) ;;
          cogsResponse <- await catalog_request ;;
          act (ConsoleLog [JStr "Available bands:"; data cogsResponse]) ;;
          act (ConsoleLog [JStr "Submitting manipulation request:";
                           JObj [("endpoint", JStr (endpoint operation));
                                 ("payload", payload operation band1 band2)]]) ;;
          response <- await (manipulate_request operation band1 band2) ;;
          act (ConsoleLog [JStr "Manipulation response:"; data response]) ;;
          if truthy (data response) && strict_eq_str (field (data response) "status") "success"
          then
            inner <- get (data response) "data" ;;
            visualizationPath <- get inner "visualization" ;;
            act (ConsoleLog [JStr "Visualization path:"; visualizationPath]) ;;
            act (SetVisualizationUrl visualizationPath) ;;
            act (SetVisualizationType manipulation) ;;
            act (Toast completed_toast)
          else
            Throw (Error "Manipulation completed but response format is unexpected"))
         (fun e =>
            act (ConsoleError "Error in band manipulation:" e) ;;
            act (Toast (failed_toast e))))
      (act (SetBmLoading false)).

End BandManipulations.

(** ** components/Visualization.tsx *)

Module Visualization.

Definition loadImageFromApi (apiUrl : string) : prog unit :=
  finally
    (try_catch
       (act (SetLoading true) ;;
        act (SetError "") ;;
        act (ConsoleLog [JStr ("Loading image from API URL: " ++ apiUrl)]) ;;
        response <- await (axios_get_blob ("http://localhost:8000" ++ apiUrl)) ;;
        u <- createObjectURL (data response) ;;
        act (SetImageUrl u))
       (fun e =>
          act (ConsoleError "Error loading image:" e) ;;
          act (SetError "Error loading visualization")))
    (act (SetLoading false)).

Definition loadVisualization (bandName : string) : prog unit :=
  finally
    (try_catch
       (act (SetLoading true) ;;
        act (SetError "") ;;
        response <- await (axios_get_blob ("http://localhost:8000/api/visualize/" ++ bandName)) ;;
        u <- createObjectURL (data response) ;;
        act (SetImageUrl u))
       (fun _ => act (SetError "Error loading visualization")))
    (act (SetLoading false)).

(** The effect that depends on [visualizationUrl]. *)
Definition effect (visualizationUrl : jsval) : prog unit :=
  if truthy visualizationUrl then
    match visualizationUrl with
    | JStr s =>
        if String.prefix "blob:" s
        then act (SetImageUrl s)
        else loadImageFromApi s
    | _ => Throw (Error "visualizationUrl.startsWith is not a function")
    end
  else Ret tt.

(** What the component returns, below its heading. *)
Inductive view : Type :=
| Spinner
| ErrorText (msg : string)
| Image (src : string)
| Prompt.

Definition render (w : world) : view :=
  if loading w then Spinner
  else if truthy (JStr (vis_error w)) then ErrorText (vis_error w)
  else if truthy (JStr (imageUrl w)) then Image (imageUrl w)
  else Prompt.

End Visualization.

(** ** The event loop

    Handlers never run in parallel: one runs until it returns or reaches an
    [await]; a suspended handler is resumed when its request settles, in
    whatever order the requests settle. *)

Record task : Type := mkTask {
  waiting_for : request;
  resume : outcome -> prog unit
}.

Record page : Type := mkPage {
  state : world;
  inflight : list task;
  sent : list request;
  unmounted : bool
}.

(** An application at rest in state [w]. *)
Definition idle (w : world) : page := mkPage w [] [] false.

(** Run [p] up to its first suspension.  An exception nobody catches tears
    the component tree down (there is no error boundary in [App]). *)
Definition launch (p : prog unit) (a : page) : page :=
  match exec p (state a) with
  | (w, Finished _) => mkPage w (inflight a) (sent a) (unmounted a)
  | (w, Raised _) => mkPage w (inflight a) (sent a) true
  | (w, Blocked r k) => mkPage w (inflight a ++ [mkTask r k]) (sent a ++ [r]) (unmounted a)
  end.

Fixpoint remove_nth {A : Type} (i : nat) (l : list A) : list A :=
  match i, l with
  | _, [] => []
  | O, _ :: rest => rest
  | S j, x :: rest => x :: remove_nth j rest
  end.

(** The [i]-th outstanding request settles with [o]. *)
Definition settle (i : nat) (o : outcome) (a : page) : page :=
  match nth_error (inflight a) i with
  | None => a
  | Some t =>
      launch (resume t o)
             (mkPage (state a) (remove_nth i (inflight a)) (sent a) (unmounted a))
  end.

(** What happens to the display panel. *)
Inductive panel_event : Type :=
| RefChanged (v : jsval)
| BandRequested (bandName : string)
| Settled (i : nat) (o : outcome).

(** [RefChanged v]: the shared [visualizationUrl] has become [v] and the
    panel's effect fires on it; React fires it on mount and after a render in
    which the reference differs from the one of the render before, a check
    that is made where a reference is published ([reference_published]).
    [BandRequested b]: [loadVisualization b] is called (the component defines
    it; nothing in the repository calls it). *)
Definition panel_step (a : page) (ev : panel_event) : page :=
  if unmounted a then a
  else
    match ev with
    | RefChanged v =>
        let a' := mkPage (apply_action (SetVisualizationUrl v) (state a))
                        (inflight a) (sent a) (unmounted a) in
        launch (Visualization.effect (visualizationUrl (context (state a')))) a'
    | BandRequested bandName => launch (Visualization.loadVisualization bandName) a
    | Settled i o => settle i o a
    end.

Definition panel_run (a : page) (evs : list panel_event) : page :=
  fold_left panel_step evs a.


(** The content behind an object URL. *)
Fixpoint lookup_url (src : string) (n : nat) (contents : list string) : option string :=
  match contents with
  | [] => None
  | c :: rest => if String.eqb (object_url n) src then Some c else lookup_url src (S n) rest
  end.

(** The picture on screen: the content of the object URL the panel renders,
    when it renders an image. *)
Definition displayed (a : page) : option string :=
  if unmounted a then None
  else
    match Visualization.render (state a) with
    | Visualization.Image src => lookup_url src 0 (objectURLs (state a))
    | _ => None
    end.

(** A successful binary response. *)
Definition blob_response (content : string) : outcome := inr (mkResponse (JBlob content)).

(** What the rest of [loadImageFromApi] (and of [loadVisualization]) does to
    the state once its request has settled with [o]. *)
Definition settled (o : outcome) (w : world) : world :=
  match o with
  | inr (mkResponse (JBlob content)) =>
      let (u, w') := register_blob content w in
      apply_action (SetLoading false) (apply_action (SetImageUrl u) w')
  | _ =>
      apply_action (SetLoading false)
        (apply_action (SetError "Error loading visualization") w)
  end.

(** A suspended image fetch of the display panel. *)
Definition fetch_task (t : task) : Prop :=
  forall (o : outcome) (w : world), exec (resume t o) w = (settled o w, Finished tt).

(** Every outstanding request of the page is an image fetch of the panel. *)
Definition fetching (a : page) : Prop := Forall fetch_task (inflight a).

(** ** Shared state across handler runs *)

(** [visualizationKind == none] if and only if the reference is empty. *)
Definition consistent (c : VisualizationContextType) : Prop :=
  visualizationType c = none <-> truthy (visualizationUrl c) = false.

(** The operations of the panels. *)
Inductive panel_operation : Type :=
| LoadCatalog
| SelectBand (bandName : string)
| Calculate (operation band1 band2 : string)
| ShowReference.

Definition handler (op : panel_operation) (w : world) : prog unit :=
  match op with
  | LoadCatalog => SpectralBands.fetchBands
  | SelectBand bandName => SpectralBands.handleBandSelect bandName
  | Calculate operation band1 band2 =>
      BandManipulations.handleCalculate operation band1 band2
  | ShowReference => Visualization.effect (visualizationUrl (context w))
  end.

(** States between handler runs, each run taken to completion. *)
Inductive reachable (be : backend) : world -> list request -> Prop :=
| reach_initial : reachable be initial_world []
| reach_run (w w' : world) (served served' : list request)
    (op : panel_operation) (res : exn + unit) :
    reachable be w served ->
    run be (handler op w) w served = (w', served', res) ->
    reachable be w' served'.

(** Every answer that reports success carries a non-empty path. *)
Definition paths_present (be : backend) : Prop :=
  forall (served : list request) (r : request) (resp : response),
    be served r = inr resp ->
    truthy (data resp) && strict_eq_str (field (data resp) "status") "success" = true ->
    truthy (field (field (data resp) "data") "visualization") = true.

(** ** components/DataStatistics.tsx *)

Module DataStatistics.

(** The panel's [useState] cells; [stats] starts as [null]. *)
Record panel : Type := mkPanel {
  stats : jsval;
  loading : bool;
  error : string
}.

Definition initial_panel : panel := mkPanel JNull false "".

Inductive action : Type :=
| SetStats (v : jsval)
| SetLoading (b : bool)
| SetError (e : string)
| ConsoleLog (args : list jsval)
| ConsoleError (label : string) (e : exn).

Definition apply_action (a : action) (p : panel) : panel :=
  match a with
  | SetStats v => mkPanel v (loading p) (error p)
  | SetLoading b => mkPanel (stats p) b (error p)
  | SetError e => mkPanel (stats p) (loading p) e
  | ConsoleLog _ | ConsoleError _ _ => p
  end.

(** The panel's async functions, as resumptions over its own setters. *)
Inductive proc (A : Type) : Type :=
| Ret (a : A)
| Throw (e : exn)
| Act (a : action) (k : proc A)
| Await (r : request) (k : outcome -> proc A).

Arguments Ret {A} a.
Arguments Throw {A} e.
Arguments Act {A} a k.
Arguments Await {A} r k.

Fixpoint bind {A B : Type} (p : proc A) (f : A -> proc B) : proc B :=
  match p with
  | Ret a => f a
  | Throw e => Throw e
  | Act a k => Act a (bind k f)
  | Await r k => Await r (fun o => bind (k o) f)
  end.

Fixpoint try_catch {A : Type} (p : proc A) (h : exn -> proc A) : proc A :=
  match p with
  | Ret a => Ret a
  | Throw e => h e
  | Act a k => Act a (try_catch k h)
  | Await r k => Await r (fun o => try_catch (k o) h)
  end.

Fixpoint finally {A : Type} (p : proc A) (f : proc unit) : proc A :=
  match p with
  | Ret a => bind f (fun _ => Ret a)
  | Throw e => bind f (fun _ => Throw e)
  | Act a k => Act a (finally k f)
  | Await r k => Await r (fun o => finally (k o) f)
  end.

Definition act (a : action) : proc unit := Act a (Ret tt).

Definition await (r : request) : proc response :=
  Await r (fun o => match o with
                    | inl e => Throw e
                    | inr resp => Ret resp
                    end).

Declare Scope stats_scope.
Delimit Scope stats_scope with stats.
Notation "x <- p ;; q" := (bind p (fun x => q))
  (at level 61, p at next level, right associativity) : stats_scope.
Notation "p ;; q" := (bind p (fun _ => q))
  (at level 61, right associativity) : stats_scope.

Definition statistics_request (bandName : string) : request :=
  axios_get ("http://localhost:8000/api/statistics/" ++ bandName).

Definition loadStatistics (bandName : string) : proc unit :=
  finally
    (try_catch
       (act (SetLoading true) ;;
        act (SetError "") ;;
        act (ConsoleLog [JStr ("Loading statistics for band: " ++ bandName)]) ;;
        response <- await (statistics_request bandName) ;;
        if truthy (data response) && truthy (field (data response) "data")
        then act (SetStats (field (data response) "data"))
        else act (SetError "Statistics data format is invalid"))%stats
       (fun e =>
          act (ConsoleError "Error loading statistics:" e) ;;
          act (SetError "Failed to load statistics"))%stats)
    (act (SetLoading false)).

(** The effect that depends on the shared [selectedBand]. *)
Definition effect (selectedBand : string) : proc unit :=
  if truthy (JStr selectedBand) then loadStatistics selectedBand else Ret tt.

(** What the component returns, below its heading.  The grid shows the four
    numbers, each through [toFixed(2)]; the formatting itself is not
    modelled. *)
Inductive view : Type :=
| Spinner
| ErrorText (msg : string)
| StatGrid (minimum maximum mean std : Z)
| Prompt.

(** [stats.name.toFixed(2)]: needs a number. *)
Definition number (v : jsval) (name : string) : exn + Z :=
  match field v name with
  | JNum n => inr n
  | JUndefined => inl (TypeError_read JUndefined "toFixed")
  | JNull => inl (TypeError_read JNull "toFixed")
  | _ => inl (Error ("stats." ++ name ++ ".toFixed is not a function"))
  end.

Definition grid (v : jsval) : exn + view :=
  match number v "minimum" with
  | inl e => inl e
  | inr minimum =>
    match number v "maximum" with
    | inl e => inl e
    | inr maximum =>
      match number v "mean" with
      | inl e => inl e
      | inr mean =>
        match number v "std" with
        | inl e => inl e
        | inr std => inr (StatGrid minimum maximum mean std)
        end
      end
    end
  end.

Definition render (p : panel) : exn + view :=
  if loading p then inr Spinner
  else if truthy (JStr (error p)) then inr (ErrorText (error p))
  else if truthy (stats p) then grid (stats p)
  else inr Prompt.

(** Running up to the first suspension. *)
Inductive stop (A : Type) : Type :=
| Finished (a : A)
| Raised (e : exn)
| Blocked (r : request) (k : outcome -> proc A).

Arguments Finished {A} a.
Arguments Raised {A} e.
Arguments Blocked {A} r k.

Fixpoint exec {A : Type} (p : proc A) (s : panel) : panel * stop A :=
  match p with
  | Ret a => (s, Finished a)
  | Throw e => (s, Raised e)
  | Act a k => exec k (apply_action a s)
  | Await r k => (s, Blocked r k)
  end.

(** The panel on the event loop. *)
Record task : Type := mkTask {
  waiting_for : request;
  resume : outcome -> proc unit
}.

Record page : Type := mkPage {
  state : panel;
  inflight : list task;
  sent : list request
}.

Definition idle (s : panel) : page := mkPage s [] [].

Definition launch (p : proc unit) (a : page) : page :=
  match exec p (state a) with
  | (s, Blocked r k) => mkPage s (inflight a ++ [mkTask r k]) (sent a ++ [r])
  | (s, _) => mkPage s (inflight a) (sent a)
  end.

Definition settle (i : nat) (o : outcome) (a : page) : page :=
  match nth_error (inflight a) i with
  | None => a
  | Some t =>
      launch (resume t o) (mkPage (state a) (remove_nth i (inflight a)) (sent a))
  end.

(** [BandChanged b]: the shared [selectedBand] has become [b] and the effect
    fires on it.  [Settled i o]: the [i]-th outstanding request settles.
    Whether the effect fires at all, and whether the panel survives its next
    render, is decided by React: see [drive_step]. *)
Inductive event : Type :=
| BandChanged (selectedBand : string)
| Settled (i : nat) (o : outcome).

Definition step (a : page) (ev : event) : page :=
  match ev with
  | BandChanged b => launch (effect b) a
  | Settled i o => settle i o a
  end.

Definition run_events (a : page) (evs : list event) : page :=
  fold_left step evs a.

(** What the rest of [loadStatistics] does once its request has settled. *)
Definition settled (o : outcome) (s : panel) : panel :=
  match o with
  | inl _ =>
      apply_action (SetLoading false)
        (apply_action (SetError "Failed to load statistics") s)
  | inr response =>
      if truthy (data response) && truthy (field (data response) "data")
      then apply_action (SetLoading false)
             (apply_action (SetStats (field (data response) "data")) s)
      else apply_action (SetLoading false)
             (apply_action (SetError "Statistics data format is invalid") s)
  end.

Definition stats_task (t : task) : Prop :=
  forall (o : outcome) (s : panel), exec (resume t o) s = (settled o s, Finished tt).

Definition loading_stats (a : page) : Prop := Forall stats_task (inflight a).

(** A well-formed answer of the statistics endpoint. *)
Definition stats_response (v : jsval) : outcome := inr (mkResponse (JObj [("data", v)])).

(** The non-empty bands among the selection changes of [evs], in order. *)
Fixpoint selections (evs : list event) : list string :=
  match evs with
  | [] => []
  | BandChanged b :: rest =>
      if truthy (JStr b) then b :: selections rest else selections rest
  | Settled _ _ :: rest => selections rest
  end.

(** The panel as React drives it.  [held] is the [selectedBand] of the last
    render: the effect has dependencies [[selectedBand]] and re-runs only
    when the band differs from it.  [torn]: a render has thrown; with no
    error boundary in [App] the component tree is gone, and neither effects
    nor the setters of outstanding requests do anything any more. *)
Record session : Type := mkSession {
  shown : page;
  held : string;
  torn : bool
}.

(** A mounted panel at rest in state [s] whose last render saw
    [selectedBand]. *)
Definition begin (s : panel) (selectedBand : string) : session :=
  mkSession (idle s) selectedBand false.

(** The render that follows a state change. *)
Definition rendered (x : session) : session :=
  match render (state (shown x)) with
  | inr _ => x
  | inl _ => mkSession (shown x) (held x) true
  end.

(** [Selected b]: a handler has set the shared [selectedBand] to [b].
    [Answered i o]: the [i]-th outstanding request settles with [o]. *)
Inductive input : Type :=
| Selected (selectedBand : string)
| Answered (i : nat) (o : outcome).

Definition drive_step (x : session) (inp : input) : session :=
  if torn x then x
  else
    match inp with
    | Selected b =>
        if String.eqb b (held x) then x
        else rendered (mkSession (step (shown x) (BandChanged b)) b false)
    | Answered i o =>
        rendered (mkSession (step (shown x) (Settled i o)) (held x) false)
    end.

Definition drive (x : session) (ins : list input) : session :=
  fold_left drive_step ins x.

(** The bands the panel is expected to request over [ins]: each non-empty
    selection that differs from the selection before it. *)
Fixpoint requested (held : string) (ins : list input) : list string :=
  match ins with
  | [] => []
  | Selected b :: rest =>
      if String.eqb b held then requested held rest
      else if truthy (JStr b) then b :: requested b rest
      else requested b rest
  | Answered _ _ :: rest => requested held rest
  end.

End DataStatistics.

(** ** Sample backends *)

Definition manipulation_ok (path : jsval) : response :=
  mkResponse (JObj [("status", JStr "success"); ("data", JObj [("visualization", path)])]).

(** Answers every request with a well-formed success body. *)
Definition backend_ok : backend :=
  fun _ _ => inr (manipulation_ok (JStr "/api/visualize/result.png")).

(** Unreachable: every request rejects without a response. *)
Definition backend_down : backend :=
  fun _ _ => inl (mkExn "Network Error" None).

(** Answers every request with a 404 carrying a [detail]. *)
Definition backend_rejecting : backend :=
  fun _ _ =>
    inl (mkExn "Request failed with status code 404"
               (Some (mkResponse (JObj [("detail", JStr "Band not found")])))).

(** Answers every request with status 200 and a body that declines, with a
    detail. *)
Definition backend_declining : backend :=
  fun _ _ =>
    inr (mkResponse (JObj [("status", JStr "error");
                           ("detail", JStr "Bands have different dimensions")])).

(** Reports success with a payload that has no [visualization] field. *)
Definition backend_pathless : backend :=
  fun _ _ => inr (mkResponse (JObj [("status", JStr "success"); ("data", JObj [])])).

(** Answers every request with a one-band catalog. *)
Definition sample_catalog : jsval :=
  JObj [("IMG_VIS", JObj [("description", JStr "Visible");
                          ("wavelength", JStr "0.65 um");
                          ("dimensions", JStr "1 km")])].

Definition backend_catalog : backend :=
  fun _ _ => inr (mkResponse (JObj [("data", sample_catalog)])).

(** As [backend_ok], except that the catalog endpoint answers with an empty
    body. *)
Definition backend_blank_catalog : backend :=
  fun served r =>
    if String.eqb (url r) (url catalog_request)
    then inr (mkResponse JNull)
    else backend_ok served r.

(** ** The arithmetic sequence, step by step *)

Section ArithmeticSequence.

Variable be : backend.
Variable served : list request.
Variables operation band1 band2 : string.

(** The four requests of a run, in program order. *)
Definition arithmetic_steps : list request :=
  [convert_request band1;
   convert_request band2;
   catalog_request;
   BandManipulations.manipulate_request operation band1 band2].

(** The backend's answer to the arithmetic request of a run in which the
    three requests before it were served. *)
Definition manipulation_answer : outcome :=
  be (((served ++ [convert_request band1]) ++ [convert_request band2])
        ++ [catalog_request])%list
     (BandManipulations.manipulate_request operation band1 band2).

(** [response.data && response.data.status === 'success'] *)
Definition reports_success (r : response) : bool :=
  truthy (data r) && strict_eq_str (field (data r) "status") "success".

(** [response.data.data.visualization], where it can be read. *)
Definition returned_path (r : response) : jsval :=
  field (field (data r) "data") "visualization".

(** The sequence as a chain of fallible steps, each short-circuiting the
    rest: the number of requests issued when the chain breaks and the
    exception that broke it, or [None] when every step went through.
    A rejected request breaks it at that request; an answer that does not
    report success, or whose nested payload cannot be read, breaks it
    after the fourth. *)
Definition first_failure : option (nat * exn) :=
  match be served (convert_request band1) with
  | inl e => Some (1, e)
  | inr _ =>
    match be (served ++ [convert_request band1])%list (convert_request band2) with
    | inl e => Some (2, e)
    | inr _ =>
      match be ((served ++ [convert_request band1]) ++ [convert_request band2])%list
               catalog_request with
      | inl e => Some (3, e)
      | inr _ =>
        match manipulation_answer with
        | inl e => Some (4, e)
        | inr r =>
            if reports_success r then
              if nullish (field (data r) "data")
              then Some (4, TypeError_read (field (data r) "data") "visualization")
              else None
            else Some (4, Error "Manipulation completed but response format is unexpected")
        end
      end
    end
  end.

End ArithmeticSequence.

(** The states a failed and a completed run of [handleCalculate] leave. *)
Definition after_failure (e : exn) (w : world) : world :=
  apply_action (SetBmLoading false)
    (apply_action (Toast (BandManipulations.failed_toast e))
       (apply_action (SetBmLoading true) w)).

Definition after_success (path : jsval) (w : world) : world :=
  apply_action (SetBmLoading false)
    (apply_action (Toast BandManipulations.completed_toast)
       (apply_action (SetVisualizationType manipulation)
          (apply_action (SetVisualizationUrl path)
             (apply_action (SetBmLoading true) w)))).

(** * Properties *)

#[local] Arguments String.append : simpl never.

(** ** The two ways of running agree *)

(** A run in isolation is a run up to the first suspension, resumed with the
    backend's answer. *)
Lemma run_exec {A : Type} (be : backend) (p : prog A) (w : world) (served : list request) :
  run be p w served =
    match exec p w with
    | (w', Finished a) => (w', served, inr a)
    | (w', Raised e) => (w', served, inl e)
    | (w', Blocked r k) => run be (k (be served r)) w' (served ++ [r])
    end.
Proof.
  revert w. induction p as [a|e|a k IH|c k IH|r k IH]; intros w; cbn.
  - reflexivity.
  - reflexivity.
  - apply IH.
  - apply IH.
  - reflexivity.
Qed.

(** ** The band catalog panel *)

Section CatalogPanel.

Variable be : backend.
Variable w : world.
Variable served : list request.

Lemma fetchBands_rejected (e : exn) :
  be served catalog_request = inl e ->
  run be SpectralBands.fetchBands w served =
    (apply_action (Toast SpectralBands.fetch_failed_toast) w,
     (served ++ [catalog_request])%list,
     inr tt).
Proof.
  intros Hrej. unfold SpectralBands.fetchBands. cbn.
  rewrite Hrej. reflexivity.
Qed.

Lemma handleBandSelect_rejected (bandName : string) (e : exn) :
  be served (convert_request bandName) = inl e ->
  run be (SpectralBands.handleBandSelect bandName) w served =
    (apply_action (Toast SpectralBands.convert_failed_toast)
       (apply_action (SetContextBand bandName)
          (apply_action (SetSelectedBand bandName) w)),
     (served ++ [convert_request bandName])%list,
     inr tt).
Proof.
  intros Hrej. unfold SpectralBands.handleBandSelect. cbn.
  rewrite Hrej. reflexivity.
Qed.

Lemma handleBandSelect_resolved (bandName : string) (r : response) :
  be served (convert_request bandName) = inr r ->
  run be (SpectralBands.handleBandSelect bandName) w served =
    (apply_action (Toast SpectralBands.converted_toast)
       (apply_action (SetVisualizationUrl (JStr ("/api/visualize/" ++ bandName)))
          (apply_action (SetVisualizationType band)
             (apply_action (SetContextBand bandName)
                (apply_action (SetSelectedBand bandName) w)))),
     (served ++ [convert_request bandName])%list,
     inr tt).
Proof.
  intros Hres. unfold SpectralBands.handleBandSelect. cbn.
  rewrite Hres. reflexivity.
Qed.

End CatalogPanel.

(** C8 (as amended).  When the catalog request of [fetchBands] rejects, the
    run surfaces exactly one transient notification, of status [error]
    (3000 ms, closable); the panel's band mapping is left as it was, so
    empty when the panel has just mounted; and the catalog endpoint has been
    requested once, with no second attempt.  Shared state is not touched. *)
Theorem fetchBands_failure
  (be : backend) (w : world) (served : list request) (e : exn) :
  be served (catalog_request) = inl e ->
  exists w',
    run be SpectralBands.fetchBands w served =
      (w', (served ++ [catalog_request])%list, inr tt)
    /\ toasts w' = (toasts w ++ [SpectralBands.fetch_failed_toast])%list
    /\ status SpectralBands.fetch_failed_toast = error
    /\ duration SpectralBands.fetch_failed_toast = 3000%Z
    /\ isClosable SpectralBands.fetch_failed_toast = true
    /\ bands w' = bands w
    /\ (bands w = JObj [] -> bands w' = JObj [])
    /\ context w' = context w.
Proof.
  intros Hrej. eexists. split.
  - eapply fetchBands_rejected. exact Hrej.
  - cbn. repeat split; auto.
Qed.

Lemma fetchBands_failure_witness :
  exists w',
    run backend_down SpectralBands.fetchBands initial_world [] =
      (w', [catalog_request], inr tt)
    /\ toasts w' = [SpectralBands.fetch_failed_toast]
    /\ bands w' = JObj [].
Proof.
  destruct (@fetchBands_failure backend_down initial_world []
              (mkExn "Network Error" None) eq_refl)
    as (w' & Hrun & Htoasts & _ & _ & _ & Hbands & _).
  exists w'. repeat split; assumption.
Defined.

(** C8 (as stated) fails: with the backend unreachable, the one notification
    of a [fetchBands] run from the initial state has status [error], so none
    of status [warning] is surfaced. *)
Lemma fetchBands_failure_is_not_a_warning :
  ~ (exists t,
       toasts (fst (fst (run backend_down SpectralBands.fetchBands initial_world [])))
         = [t]
       /\ status t = warning).
Proof.
  cbn. intros (t & Ht & Hstatus).
  injection Ht as <-. discriminate Hstatus.
Qed.

(** C1 (as amended).  When the conversion request of [handleBandSelect]
    rejects, the shared visualization reference and kind keep their values,
    the shared selected band has become the chosen one, and one notification
    of status [error] is surfaced. *)
Theorem handleBandSelect_failure
  (be : backend) (w : world) (served : list request) (bandName : string) (e : exn) :
  be served (convert_request bandName) = inl e ->
  exists w' served',
    run be (SpectralBands.handleBandSelect bandName) w served = (w', served', inr tt)
    /\ visualizationUrl (context w') = visualizationUrl (context w)
    /\ visualizationType (context w') = visualizationType (context w)
    /\ selectedBand (context w') = bandName
    /\ toasts w' = (toasts w ++ [SpectralBands.convert_failed_toast])%list
    /\ status SpectralBands.convert_failed_toast = error.
Proof.
  intros Hrej. do 2 eexists. split.
  - eapply handleBandSelect_rejected. exact Hrej.
  - cbn. repeat split; reflexivity.
Qed.

Lemma handleBandSelect_failure_witness :
  exists w' served',
    run backend_down (SpectralBands.handleBandSelect "IMG_VIS") initial_world []
      = (w', served', inr tt)
    /\ visualizationUrl (context w') = JStr ""
    /\ visualizationType (context w') = none
    /\ selectedBand (context w') = "IMG_VIS".
Proof.
  destruct (@handleBandSelect_failure backend_down initial_world [] "IMG_VIS"
              (mkExn "Network Error" None) eq_refl)
    as (w' & served' & Hrun & Hurl & Hkind & Hband & _).
  exists w', served'. repeat split; assumption.
Defined.

(** C1 (as stated) fails: selecting IMG_VIS from the initial state with the
    backend unreachable leaves a shared state that differs from the one
    before the call, in its selected band. *)
Lemma handleBandSelect_failure_changes_selected_band :
  let w' := fst (fst (run backend_down (SpectralBands.handleBandSelect "IMG_VIS")
                        initial_world [])) in
  selectedBand (context w') = "IMG_VIS"
  /\ selectedBand (context initial_world) = ""
  /\ context w' <> context initial_world.
Proof.
  cbn. repeat split. discriminate.
Qed.

(** ** The band arithmetic panel *)

Lemma truthy_JStr (s : string) : truthy (JStr s) = false <-> s = "".
Proof.
  cbn. destruct (String.eqb_spec s ""); cbn; split; congruence.
Qed.

Lemma unset_operand (band1 band2 : string) :
  negb (truthy (JStr band1)) || negb (truthy (JStr band2)) = true
  <-> band1 = "" \/ band2 = "".
Proof.
  rewrite orb_true_iff, !negb_true_iff, !truthy_JStr. reflexivity.
Qed.

Lemma both_operands (band1 band2 : string) :
  band1 <> "" -> band2 <> "" ->
  negb (truthy (JStr band1)) || negb (truthy (JStr band2)) = false.
Proof.
  intros H1 H2.
  destruct (negb (truthy (JStr band1)) || negb (truthy (JStr band2))) eqn:E; auto.
  apply unset_operand in E. tauto.
Qed.

Section ArithmeticPanel.

Variable be : backend.
Variable w : world.
Variable served : list request.
Variables operation band1 band2 : string.

Lemma handleCalculate_unset :
  band1 = "" \/ band2 = "" ->
  BandManipulations.handleCalculate operation band1 band2 =
    act (Toast BandManipulations.select_both_toast).
Proof.
  intros H. apply unset_operand in H.
  unfold BandManipulations.handleCalculate. rewrite H. reflexivity.
Qed.

Hypothesis set1 : band1 <> "".
Hypothesis set2 : band2 <> "".

(** A run with both operands chosen, in full. *)
Lemma handleCalculate_run :
  run be (BandManipulations.handleCalculate operation band1 band2) w served =
    match first_failure be served operation band1 band2 with
    | Some (n, e) =>
        (after_failure e w,
         (served ++ firstn n (arithmetic_steps operation band1 band2))%list,
         inr tt)
    | None =>
        match manipulation_answer be served operation band1 band2 with
        | inr r =>
            (after_success (returned_path r) w,
             (served ++ arithmetic_steps operation band1 band2)%list,
             inr tt)
        | inl e => (w, served, inl e)
        end
    end.
Proof.
  unfold BandManipulations.handleCalculate, first_failure, manipulation_answer,
    arithmetic_steps.
  rewrite (both_operands set1 set2). cbn.
  destruct (be served (convert_request band1)) as [e|r1]; cbn.
  { reflexivity. }
  destruct (be (served ++ [convert_request band1])%list (convert_request band2))
    as [e|r2]; cbn.
  { rewrite <- app_assoc. reflexivity. }
  destruct (be ((served ++ [convert_request band1]) ++ [convert_request band2])%list
              catalog_request) as [e|r3]; cbn.
  { rewrite <- !app_assoc. reflexivity. }
  destruct (be (((served ++ [convert_request band1]) ++ [convert_request band2])
                  ++ [catalog_request])%list
              (BandManipulations.manipulate_request operation band1 band2))
    as [e|r4]; cbn.
  { rewrite <- !app_assoc. reflexivity. }
  unfold reports_success, returned_path, get.
  destruct (truthy (data r4) && strict_eq_str (field (data r4) "status") "success")
    eqn:Hok; cbn.
  - apply andb_true_iff in Hok. destruct Hok as [Hdata _].
    assert (Hnn : nullish (data r4) = false)
      by (destruct (data r4); cbn in *; congruence).
    rewrite Hnn. cbn.
    destruct (nullish (field (data r4) "data")) eqn:Hinner; cbn;
      rewrite <- !app_assoc; reflexivity.
  - rewrite <- !app_assoc. reflexivity.
Qed.

End ArithmeticPanel.

Lemma handleCalculate_completes
  (be : backend) (w : world) (served : list request) (operation band1 band2 : string) :
  band1 <> "" -> band2 <> "" ->
  first_failure be served operation band1 band2 = None ->
  exists r,
    manipulation_answer be served operation band1 band2 = inr r
    /\ reports_success r = true
    /\ run be (BandManipulations.handleCalculate operation band1 band2) w served =
         (after_success (returned_path r) w,
          (served ++ arithmetic_steps operation band1 band2)%list,
          inr tt).
Proof.
  intros H1 H2 Hnone.
  rewrite (handleCalculate_run be w served operation H1 H2), Hnone.
  unfold first_failure in Hnone.
  destruct (be served (convert_request band1)) as [?|r1]; [discriminate|].
  destruct (be (served ++ [convert_request band1])%list (convert_request band2))
    as [?|r2]; [discriminate|].
  destruct (be ((served ++ [convert_request band1]) ++ [convert_request band2])%list
              catalog_request) as [?|r3]; [discriminate|].
  destruct (manipulation_answer be served operation band1 band2) as [?|r];
    [discriminate|].
  exists r. destruct (reports_success r); [|discriminate]. auto.
Qed.

Lemma first_failure_bound
  (be : backend) (served : list request) (operation band1 band2 : string)
  (n : nat) (e : exn) :
  first_failure be served operation band1 band2 = Some (n, e) -> 1 <= n <= 4.
Proof.
  unfold first_failure.
  repeat match goal with
         | |- context [match ?x with _ => _ end] => destruct x
         end;
    intros H; inversion H; subst; lia.
Qed.

(** C4.  When either operand of the arithmetic action is unset, the handler
    returns without suspending: no request is issued, exactly one
    notification is produced, of status [warning], and shared state is as
    before. *)
Theorem handleCalculate_unset_operand
  (be : backend) (w : world) (served : list request) (operation band1 band2 : string) :
  band1 = "" \/ band2 = "" ->
  run be (BandManipulations.handleCalculate operation band1 band2) w served =
    (apply_action (Toast BandManipulations.select_both_toast) w, served, inr tt)
  /\ exec (BandManipulations.handleCalculate operation band1 band2) w =
       (apply_action (Toast BandManipulations.select_both_toast) w, Finished tt)
  /\ toasts (apply_action (Toast BandManipulations.select_both_toast) w) =
       (toasts w ++ [BandManipulations.select_both_toast])%list
  /\ status BandManipulations.select_both_toast = warning
  /\ context (apply_action (Toast BandManipulations.select_both_toast) w) = context w.
Proof.
  intros Hunset. rewrite (handleCalculate_unset operation Hunset).
  cbn. repeat split; reflexivity.
Qed.

Lemma handleCalculate_unset_operand_witness :
  run backend_ok (BandManipulations.handleCalculate "ratio" "IMG_VIS" "") initial_world [] =
    (apply_action (Toast BandManipulations.select_both_toast) initial_world, [], inr tt).
Proof.
  apply (@handleCalculate_unset_operand backend_ok initial_world [] "ratio" "IMG_VIS" "").
  right. reflexivity.
Defined.

(** C3.  A run of the arithmetic action for the ratio of A by B that ends
    with the completion notification has issued exactly four requests, in
    this order: POST [/api/convert/A], POST [/api/convert/B] (both without a
    body), GET [/api/bands], and POST [/api/manipulate/ratio] with body
    {numerator: A, denominator: B}; the last is the only request to the
    ratio endpoint among them. *)
Theorem ratio_request_sequence
  (be : backend) (w w' : world) (served served' : list request) (A B : string)
  (res : exn + unit) :
  run be (BandManipulations.handleCalculate "ratio" A B) w served = (w', served', res) ->
  toasts w' =
    (toasts w ++ [mkToast "Calculation completed" JUndefined success 2000 true])%list ->
  let ratio_call :=
    mkRequest POST "http://localhost:8000/api/manipulate/ratio"
              (JObj [("numerator", JStr A); ("denominator", JStr B)]) json in
  let issued :=
    [mkRequest POST ("http://localhost:8000/api/convert/" ++ A) JUndefined json;
     mkRequest POST ("http://localhost:8000/api/convert/" ++ B) JUndefined json;
     mkRequest GET "http://localhost:8000/api/bands" JUndefined json;
     ratio_call] in
  served' = (served ++ issued)%list
  /\ filter (fun r => String.eqb (url r) "http://localhost:8000/api/manipulate/ratio")
            issued
     = [ratio_call].
Proof.
  intros Hrun Hdone. cbv zeta. split; [|reflexivity].
  destruct (string_dec A "") as [HA|HA].
  { rewrite (@handleCalculate_unset "ratio" A B (or_introl HA)) in Hrun.
    cbn in Hrun. inversion Hrun; subst. cbn in Hdone.
    apply app_inv_head in Hdone. discriminate. }
  destruct (string_dec B "") as [HB|HB].
  { rewrite (@handleCalculate_unset "ratio" A B (or_intror HB)) in Hrun.
    cbn in Hrun. inversion Hrun; subst. cbn in Hdone.
    apply app_inv_head in Hdone. discriminate. }
  destruct (first_failure be served "ratio" A B) as [[n e]|] eqn:Hfail.
  - rewrite (handleCalculate_run be w served "ratio" HA HB), Hfail in Hrun.
    inversion Hrun; subst. cbn in Hdone.
    apply app_inv_head in Hdone. discriminate.
  - destruct (handleCalculate_completes be w served "ratio" HA HB Hfail)
      as (r & _ & _ & Hrun').
    rewrite Hrun' in Hrun. inversion Hrun; subst. reflexivity.
Qed.

Lemma ratio_request_sequence_witness :
  snd (fst (run backend_ok (BandManipulations.handleCalculate "ratio" "IMG_VIS" "IMG_SWIR")
              initial_world [])) =
    [mkRequest POST "http://localhost:8000/api/convert/IMG_VIS" JUndefined json;
     mkRequest POST "http://localhost:8000/api/convert/IMG_SWIR" JUndefined json;
     mkRequest GET "http://localhost:8000/api/bands" JUndefined json;
     mkRequest POST "http://localhost:8000/api/manipulate/ratio"
               (JObj [("numerator", JStr "IMG_VIS"); ("denominator", JStr "IMG_SWIR")])
               json].
Proof.
  exact (proj1 (@ratio_request_sequence backend_ok initial_world _ [] _
                  "IMG_VIS" "IMG_SWIR" _ eq_refl eq_refl)).
Defined.

(** C5 (as amended).  When a run of the arithmetic action with both operands
    chosen breaks at some step (a request rejects, the answer does not report
    success, or its payload cannot be read), no request after the failing
    one is issued, shared state is as before the run, and exactly one
    notification is surfaced, of status [error].  Its description is the
    [detail] field of the body that came with the rejection, when the
    exception carries a response whose body has a truthy [detail]; in every
    other case it is the exception's message, which for an answer that does
    not report success is the handler's own fixed text, whatever that
    answer's body holds. *)
Theorem handleCalculate_failure
  (be : backend) (w : world) (served : list request) (operation band1 band2 : string)
  (n : nat) (e : exn) :
  band1 <> "" -> band2 <> "" ->
  first_failure be served operation band1 band2 = Some (n, e) ->
  let steps :=
    [mkRequest POST ("http://localhost:8000/api/convert/" ++ band1) JUndefined json;
     mkRequest POST ("http://localhost:8000/api/convert/" ++ band2) JUndefined json;
     mkRequest GET "http://localhost:8000/api/bands" JUndefined json;
     mkRequest POST
       (if String.eqb operation "ratio"
        then "http://localhost:8000/api/manipulate/ratio"
        else "http://localhost:8000/api/manipulate/difference")
       (if String.eqb operation "ratio"
        then JObj [("numerator", JStr band1); ("denominator", JStr band2)]
        else JObj [("band1", JStr band1); ("band2", JStr band2)])
       json] in
  let shown :=
    match err_response e with
    | Some (mkResponse (JObj fields)) =>
        if truthy (assoc "detail" fields) then assoc "detail" fields
        else JStr (message e)
    | _ => JStr (message e)
    end in
  exists w',
    run be (BandManipulations.handleCalculate operation band1 band2) w served =
      (w', (served ++ firstn n steps)%list, inr tt)
    /\ n <= 4
    /\ context w' = context w
    /\ toasts w' =
         (toasts w ++ [mkToast "Error performing calculation" shown error 3000 true])%list
    /\ bm_loading w' = false.
Proof.
  intros H1 H2 Hfail. cbv zeta.
  rewrite (handleCalculate_run be w served operation H1 H2), Hfail.
  pose proof (first_failure_bound _ _ _ _ _ Hfail) as Hn.
  exists (after_failure e w). split.
  - unfold arithmetic_steps, BandManipulations.manipulate_request,
      BandManipulations.endpoint, BandManipulations.payload.
    destruct (String.eqb operation "ratio"); reflexivity.
  - split; [lia|]. split; [reflexivity|]. split; [|reflexivity].
    cbn. do 2 f_equal.
    unfold BandManipulations.failed_toast, BandManipulations.error_description,
      BandManipulations.backend_detail, js_or, opt_field.
    destruct (err_response e) as [[d]|]; [|reflexivity].
    destruct d; reflexivity.
Qed.

Lemma handleCalculate_failure_witness :
  exists w',
    run backend_rejecting
        (BandManipulations.handleCalculate "difference" "IMG_VIS" "IMG_TIR1")
        initial_world [] =
      (w', [mkRequest POST "http://localhost:8000/api/convert/IMG_VIS" JUndefined json],
       inr tt)
    /\ context w' = initial_context
    /\ toasts w' =
         [mkToast "Error performing calculation" (JStr "Band not found") error 3000 true].
Proof.
  destruct (@handleCalculate_failure backend_rejecting initial_world []
              "difference" "IMG_VIS" "IMG_TIR1" 1
              (mkExn "Request failed with status code 404"
                     (Some (mkResponse (JObj [("detail", JStr "Band not found")])))))
    as (w' & Hrun & _ & Hctx & Htoasts & _);
    [discriminate|discriminate|reflexivity|].
  exists w'. repeat split; assumption.
Defined.

(** C5 (as stated) fails: when the arithmetic endpoint answers 200 with
    {status: "error", detail: "Bands have different dimensions"}, the backend
    has supplied a detail, yet the notification shows the handler's fixed
    text and not that detail. *)
Lemma detail_of_declined_answer_is_not_shown :
  let w' := fst (fst (run backend_declining
                        (BandManipulations.handleCalculate "ratio" "IMG_VIS" "IMG_SWIR")
                        initial_world [])) in
  manipulation_answer backend_declining [] "ratio" "IMG_VIS" "IMG_SWIR" =
    inr (mkResponse (JObj [("status", JStr "error");
                           ("detail", JStr "Bands have different dimensions")]))
  /\ toasts w' =
       [mkToast "Error performing calculation"
                (JStr "Manipulation completed but response format is unexpected")
                error 3000 true]
  /\ map description (toasts w') <> [JStr "Bands have different dimensions"].
Proof.
  cbv zeta. repeat split. discriminate.
Qed.

(** Nor is a detail shown that is there but falsy: a rejection whose body is
    {detail: ""} is reported with the exception's message. *)
Lemma empty_detail_is_not_shown :
  BandManipulations.error_description
    (mkExn "Request failed with status code 400"
           (Some (mkResponse (JObj [("detail", JStr "")]))))
  = JStr "Request failed with status code 400".
Proof. reflexivity. Qed.

(** C9, at a response that reports success and whose payload has no
    [visualization] field: the handler does not throw; it publishes
    [undefined] as the shared reference with kind [manipulation] and shows
    the completion notification. *)
Theorem handleCalculate_publishes_missing_path :
  run backend_pathless (BandManipulations.handleCalculate "ratio" "IMG_VIS" "IMG_SWIR")
      initial_world [] =
    (after_success JUndefined initial_world,
     arithmetic_steps "ratio" "IMG_VIS" "IMG_SWIR",
     inr tt)
  /\ visualizationUrl (context (after_success JUndefined initial_world)) = JUndefined
  /\ visualizationType (context (after_success JUndefined initial_world)) = manipulation
  /\ toasts (after_success JUndefined initial_world) = [BandManipulations.completed_toast].
Proof.
  repeat split; reflexivity.
Qed.

(** The other half of C9 holds: with no nested payload at all, reading its
    [visualization] throws before anything is written. *)
Lemma missing_payload_breaks_sequence
  (be : backend) (served : list request) (operation band1 band2 : string)
  (r1 r2 r3 r : response) :
  be served (convert_request band1) = inr r1 ->
  be (served ++ [convert_request band1])%list (convert_request band2) = inr r2 ->
  be ((served ++ [convert_request band1]) ++ [convert_request band2])%list
     catalog_request = inr r3 ->
  manipulation_answer be served operation band1 band2 = inr r ->
  reports_success r = true ->
  nullish (field (data r) "data") = true ->
  first_failure be served operation band1 band2 =
    Some (4, TypeError_read (field (data r) "data") "visualization").
Proof.
  intros Hc1 Hc2 Hc3 Hm Hok Hnull. unfold first_failure.
  rewrite Hc1, Hc2, Hc3, Hm, Hok, Hnull. reflexivity.
Qed.

(** ** The invariant of the shared state *)

Section SharedState.

Variable be : backend.

Ltac run_inv H := cbn in H; inversion H; subst; clear H; try reflexivity.

Lemma fetchBands_context (w w' : world) (served served' : list request) res :
  run be SpectralBands.fetchBands w served = (w', served', res) ->
  context w' = context w.
Proof.
  unfold SpectralBands.fetchBands. cbn.
  destruct (be served catalog_request) as [e|[d]]; cbn.
  - intros H; run_inv H.
  - unfold get. destruct (nullish d); cbn; intros H; run_inv H.
Qed.

Lemma effect_context (v : jsval) (w w' : world) (served served' : list request) res :
  run be (Visualization.effect v) w served = (w', served', res) ->
  context w' = context w.
Proof.
  unfold Visualization.effect.
  destruct (truthy v); [|intros H; run_inv H].
  destruct v; try solve [intros H; run_inv H].
  destruct (String.prefix "blob:" s); [intros H; run_inv H|].
  unfold Visualization.loadImageFromApi. cbn.
  destruct (be served _) as [e|[d]]; cbn; [intros H; run_inv H|].
  destruct d; cbn; intros H; run_inv H.
Qed.

Lemma visualize_path_truthy (bandName : string) :
  truthy (JStr ("/api/visualize/" ++ bandName)) = true.
Proof. reflexivity. Qed.

Lemma handleBandSelect_consistent (bandName : string)
  (w w' : world) (served served' : list request) res :
  consistent (context w) ->
  run be (SpectralBands.handleBandSelect bandName) w served = (w', served', res) ->
  consistent (context w').
Proof.
  intros Hw Hrun.
  destruct (be served (convert_request bandName)) as [e|r] eqn:Hconv.
  - rewrite (handleBandSelect_rejected be w served bandName Hconv) in Hrun.
    inversion Hrun; subst. exact Hw.
  - rewrite (handleBandSelect_resolved be w served bandName Hconv) in Hrun.
    inversion Hrun; subst. unfold consistent. cbn [apply_action with_context context
      visualizationType visualizationUrl].
    rewrite visualize_path_truthy. split; discriminate.
Qed.

Hypothesis Hpaths : paths_present be.
Arguments Hpaths : clear implicits.

Lemma handleCalculate_consistent (operation band1 band2 : string)
  (w w' : world) (served served' : list request) res :
  consistent (context w) ->
  run be (BandManipulations.handleCalculate operation band1 band2) w served
    = (w', served', res) ->
  consistent (context w').
Proof.
  intros Hw Hrun.
  destruct (string_dec band1 "") as [H1|H1].
  { rewrite (@handleCalculate_unset operation band1 band2 (or_introl H1)) in Hrun.
    run_inv Hrun. exact Hw. }
  destruct (string_dec band2 "") as [H2|H2].
  { rewrite (@handleCalculate_unset operation band1 band2 (or_intror H2)) in Hrun.
    run_inv Hrun. exact Hw. }
  destruct (first_failure be served operation band1 band2) as [[n e]|] eqn:Hfail.
  - rewrite (handleCalculate_run be w served operation H1 H2), Hfail in Hrun.
    inversion Hrun; subst. exact Hw.
  - destruct (handleCalculate_completes be w served operation H1 H2 Hfail)
      as (r & Hanswer & Hok & Hrun').
    rewrite Hrun' in Hrun. inversion Hrun; subst.
    unfold consistent. cbn [after_success apply_action with_context context
      visualizationType visualizationUrl].
    unfold returned_path. rewrite (Hpaths _ _ _ Hanswer Hok). split; discriminate.
Qed.

Lemma reachable_consistent (w : world) (served : list request) :
  reachable be w served -> consistent (context w).
Proof.
  induction 1 as [|w w' served served' op res Hreach IH Hrun].
  - unfold consistent. cbn. tauto.
  - destruct op; cbn [handler] in Hrun.
    + rewrite (fetchBands_context _ _ Hrun). exact IH.
    + exact (handleBandSelect_consistent _ _ _ IH Hrun).
    + exact (handleCalculate_consistent _ _ _ _ _ IH Hrun).
    + rewrite (effect_context _ _ _ Hrun). exact IH.
Qed.

End SharedState.

(** Apart from an answer that reports success without a path, complete runs
    taken one after the other keep the invariant: it holds in the initial
    state, and every complete run of a panel operation (catalog load, band
    selection, arithmetic action, display effect) started in a state where
    kind is [none] exactly when the reference is empty ends in such a state,
    provided every answer of the backend that reports success carries a
    non-empty visualization path. *)
Theorem kind_matches_reference_between_runs
  (be : backend) (w : world) (served : list request) :
  paths_present be ->
  reachable be w served ->
  consistent (context w).
Proof.
  intros Hpaths Hreach. exact (reachable_consistent Hpaths Hreach).
Qed.

Lemma backend_ok_paths_present : paths_present backend_ok.
Proof.
  intros served r resp Hanswer _. unfold backend_ok in Hanswer.
  inversion Hanswer; subst. reflexivity.
Qed.

Lemma kind_matches_reference_between_runs_witness :
  consistent
    (context
       (fst (fst (run backend_ok
                    (BandManipulations.handleCalculate "ratio" "IMG_VIS" "IMG_SWIR")
                    (fst (fst (run backend_ok (SpectralBands.handleBandSelect "IMG_VIS")
                                 initial_world [])))
                    [convert_request "IMG_VIS"])))).
Proof.
  eapply (@kind_matches_reference_between_runs backend_ok).
  - exact backend_ok_paths_present.
  - eapply (@reach_run backend_ok _ _ _ _ (Calculate "ratio" "IMG_VIS" "IMG_SWIR")).
    + eapply (@reach_run backend_ok _ _ _ _ (SelectBand "IMG_VIS")).
      * apply reach_initial.
      * reflexivity.
    + reflexivity.
Defined.

(** C2, at an arithmetic answer that reports success without a path: the
    complete run of the arithmetic action, taken from the initial state,
    ends in a state, reachable by the panels' operations, whose kind is
    [manipulation] while the reference is [undefined], hence empty; the
    invariant does not hold there. *)
Theorem kind_without_reference_after_run :
  exists (w : world) (served : list request),
    run backend_pathless (BandManipulations.handleCalculate "ratio" "IMG_VIS" "IMG_SWIR")
        initial_world [] = (w, served, inr tt)
    /\ reachable backend_pathless w served
    /\ visualizationType (context w) = manipulation
    /\ visualizationUrl (context w) = JUndefined
    /\ truthy (visualizationUrl (context w)) = false
    /\ ~ consistent (context w).
Proof.
  exists (after_success JUndefined initial_world),
    (arithmetic_steps "ratio" "IMG_VIS" "IMG_SWIR").
  split; [reflexivity|]. split.
  - eapply (@reach_run backend_pathless _ _ _ _ (Calculate "ratio" "IMG_VIS" "IMG_SWIR")).
    + apply reach_initial.
    + reflexivity.
  - repeat split.
    intros [_ Hempty]. specialize (Hempty eq_refl). discriminate Hempty.
Qed.

(** ** The display panel *)

Lemma object_url_inj (n m : nat) : object_url n = object_url m -> n = m.
Proof.
  unfold object_url. intros H. cbv [String.append] in H. injection H as H.
  apply DecimalNat.Unsigned.to_uint_inj.
  pose proof (NilEmpty.usu (Nat.to_uint n)) as Hn.
  rewrite H, NilEmpty.usu in Hn. congruence.
Qed.

Lemma object_url_nonempty (n : nat) : object_url n <> "".
Proof. unfold object_url. discriminate. Qed.

Lemma blob_prefix_truthy (s : string) :
  String.prefix "blob:" s = true -> truthy (JStr s) = true.
Proof. destruct s; [discriminate|reflexivity]. Qed.

Lemma lookup_url_fresh (c : string) (l rest : list string) (n : nat) :
  lookup_url (object_url (n + length l)) n (l ++ c :: rest) = Some c.
Proof.
  revert n. induction l as [|x l IH]; intros n; cbn [lookup_url List.app length].
  - rewrite Nat.add_0_r, String.eqb_refl. reflexivity.
  - destruct (String.eqb_spec (object_url n) (object_url (n + S (length l))))
      as [Heq|_].
    + apply object_url_inj in Heq. lia.
    + replace (n + S (length l)) with (S n + length l) by lia. apply IH.
Qed.

Section DisplayPanel.

Variable w : world.

Lemma loadImageFromApi_suspends (apiUrl : string) :
  exists k,
    exec (Visualization.loadImageFromApi apiUrl) w =
      (apply_action (SetError "") (apply_action (SetLoading true) w),
       Blocked (axios_get_blob ("http://localhost:8000" ++ apiUrl)) k)
    /\ fetch_task (mkTask (axios_get_blob ("http://localhost:8000" ++ apiUrl)) k).
Proof.
  eexists. split.
  - reflexivity.
  - intros [e|[d]] w0; cbn; [reflexivity|].
    destruct d; reflexivity.
Qed.

Lemma loadVisualization_suspends (bandName : string) :
  exists k,
    exec (Visualization.loadVisualization bandName) w =
      (apply_action (SetError "") (apply_action (SetLoading true) w),
       Blocked (axios_get_blob ("http://localhost:8000/api/visualize/" ++ bandName)) k)
    /\ fetch_task
         (mkTask (axios_get_blob ("http://localhost:8000/api/visualize/" ++ bandName)) k).
Proof.
  eexists. split.
  - reflexivity.
  - intros [e|[d]] w0; cbn; [reflexivity|].
    destruct d; reflexivity.
Qed.

End DisplayPanel.

Lemma truthy_object_url (n : nat) : truthy (JStr (object_url n)) = true.
Proof. reflexivity. Qed.

Lemma displayed_after_fetch (content : string) (w : world)
  (ts : list task) (rs : list request) :
  vis_error w = "" ->
  displayed (mkPage (settled (blob_response content) w) ts rs false) = Some content
  /\ Visualization.render (settled (blob_response content) w) =
       Visualization.Image (object_url (length (objectURLs w))).
Proof.
  intros Hclear.
  unfold displayed, Visualization.render, settled, blob_response, register_blob.
  cbn [unmounted state apply_action loading vis_error imageUrl objectURLs].
  rewrite Hclear, truthy_object_url. cbn [truthy String.eqb negb].
  split; [|reflexivity].
  exact (lookup_url_fresh content (objectURLs w) [] 0).
Qed.

Lemma published_reference (v : jsval) (w : world) :
  visualizationUrl (context (apply_action (SetVisualizationUrl v) w)) = v.
Proof. reflexivity. Qed.

Lemma remove_nth_Forall {A : Type} (P : A -> Prop) (l : list A) (i : nat) :
  Forall P l -> Forall P (remove_nth i l).
Proof.
  intros H. revert i. induction H as [|x l Hx Hl IH]; intros [|i]; cbn; auto.
Qed.

Lemma settle_fetch (a : page) (i : nat) (o : outcome) (t : task) :
  fetching a ->
  nth_error (inflight a) i = Some t ->
  settle i o a =
    mkPage (settled o (state a)) (remove_nth i (inflight a)) (sent a) (unmounted a).
Proof.
  intros Hf Hnth. unfold settle, launch. rewrite Hnth.
  assert (Ht : fetch_task t).
  { unfold fetching in Hf. rewrite Forall_forall in Hf.
    apply Hf. eapply nth_error_In. exact Hnth. }
  cbn [state]. rewrite (Ht o (state a)). reflexivity.
Qed.

Lemma imageUrl_settled (o : outcome) (w : world) :
  imageUrl w <> "" -> imageUrl (settled o w) <> "".
Proof.
  intros Hw. destruct o as [e|[d]]; [exact Hw|].
  destruct d; try exact Hw. cbn. apply object_url_nonempty.
Qed.

(** One step of the panel keeps the page's outstanding requests image
    fetches, and never empties an image URL the panel holds. *)
Lemma panel_step_keeps (a : page) (ev : panel_event) :
  fetching a ->
  fetching (panel_step a ev)
  /\ (imageUrl (state a) <> "" -> imageUrl (state (panel_step a ev)) <> "").
Proof.
  intros Hf. unfold panel_step.
  destruct (unmounted a) eqn:Hmounted; [tauto|].
  destruct ev as [v|bandName|i o].
  - cbv zeta. cbn [state]. rewrite published_reference.
    unfold Visualization.effect.
    destruct (truthy v) eqn:Hv; [|cbn; tauto].
    destruct v; try (cbn; tauto).
    destruct (String.prefix "blob:" s) eqn:Hblob.
    + cbn. split; [exact Hf|]. intros _ ->. discriminate Hblob.
    + unfold launch. cbn [state].
      destruct (loadImageFromApi_suspends
                  (apply_action (SetVisualizationUrl (JStr s)) (state a)) s)
        as (k & Hexec & Hk).
      rewrite Hexec. cbn [inflight state]. split; [|tauto].
      apply Forall_app. split; [exact Hf|]. constructor; [exact Hk|constructor].
  - unfold launch.
    destruct (loadVisualization_suspends (state a) bandName) as (k & Hexec & Hk).
    rewrite Hexec. cbn [inflight state]. split; [|tauto].
    apply Forall_app. split; [exact Hf|]. constructor; [exact Hk|constructor].
  - destruct (nth_error (inflight a) i) as [t|] eqn:Hnth.
    + rewrite (settle_fetch i o Hf Hnth). cbn [inflight state]. split.
      * apply remove_nth_Forall. exact Hf.
      * apply imageUrl_settled.
    + unfold settle. rewrite Hnth. tauto.
Qed.

Lemma panel_run_keeps (evs : list panel_event) (a : page) :
  fetching a ->
  fetching (panel_run a evs)
  /\ (imageUrl (state a) <> "" -> imageUrl (state (panel_run a evs)) <> "").
Proof.
  revert a. induction evs as [|ev evs IH]; intros a Hf; cbn [panel_run fold_left].
  - tauto.
  - destruct (panel_step_keeps ev Hf) as [Hf' Himg].
    destruct (IH _ Hf') as [Hf'' Himg']. split; [exact Hf''|]. tauto.
Qed.

Lemma idle_fetching (w : world) : fetching (idle w).
Proof. constructor. Qed.

Lemma remove_nth_last {A : Type} (l : list A) (x : A) :
  remove_nth (length l) (l ++ [x]) = l.
Proof.
  induction l as [|y l IH]; cbn; [reflexivity|]. rewrite IH. reflexivity.
Qed.

Lemma render_holds_image (w : world) :
  imageUrl w <> "" -> Visualization.render w <> Visualization.Prompt.
Proof.
  intros Himg. unfold Visualization.render.
  destruct (loading w); [discriminate|].
  destruct (truthy (JStr (vis_error w))); [discriminate|].
  destruct (truthy (JStr (imageUrl w))) eqn:Ht; [discriminate|].
  apply truthy_JStr in Ht. contradiction.
Qed.

(** A [blob:] reference is taken as the image URL as it is, and nothing is
    requested; it is what the panel shows when the panel is neither loading
    nor holding an error. *)
Lemma blob_reference_adopted (a : page) (s : string) :
  unmounted a = false ->
  String.prefix "blob:" s = true ->
  panel_step a (RefChanged (JStr s)) =
    mkPage (apply_action (SetImageUrl s)
              (apply_action (SetVisualizationUrl (JStr s)) (state a)))
           (inflight a) (sent a) false
  /\ (loading (state a) = false -> vis_error (state a) = "" ->
      Visualization.render (state (panel_step a (RefChanged (JStr s)))) =
        Visualization.Image s).
Proof.
  intros Hmounted Hblob.
  assert (Hstep : panel_step a (RefChanged (JStr s)) =
    mkPage (apply_action (SetImageUrl s)
              (apply_action (SetVisualizationUrl (JStr s)) (state a)))
           (inflight a) (sent a) false).
  { unfold panel_step. rewrite Hmounted. cbv zeta. cbn [state].
    rewrite published_reference. unfold Visualization.effect.
    rewrite (blob_prefix_truthy _ Hblob), Hblob.
    unfold launch. cbn. reflexivity. }
  split; [exact Hstep|].
  intros Hloading Herror. rewrite Hstep. unfold Visualization.render.
  cbn [state apply_action with_context loading vis_error imageUrl].
  rewrite Hloading, Herror, (blob_prefix_truthy _ Hblob). reflexivity.
Qed.


(** C6, at a [blob:] reference observed after a failed fetch: the panel takes
    the reference as its image URL and requests nothing, but the error of
    the earlier fetch is still set (only [loadImageFromApi] clears it), so
    the error text is on screen and not the image. *)
Theorem blob_reference_behind_stale_error :
  let a := panel_run (idle initial_world)
             [RefChanged (JStr "/x");
              Settled 0 (inl (Error "Network Error"));
              RefChanged (JStr "blob:abc")] in
  imageUrl (state a) = "blob:abc"
  /\ sent a = [axios_get_blob "http://localhost:8000/x"]
  /\ inflight a = []
  /\ Visualization.render (state a) =
       Visualization.ErrorText "Error loading visualization"
  /\ Visualization.render (state a) <> Visualization.Image "blob:abc".
Proof.
  cbv zeta. repeat split. discriminate.
Qed.

(** C7 (as amended).  When the shared reference becomes "/x" and then "/y"
    before the first fetch has resolved, two fetches are outstanding, for
    "/x" and for "/y"; once both have resolved, the picture on screen is
    that of the fetch that resolved last: the one of "/y" when the fetch for
    "/x" resolves first, the one of "/x" when the fetch for "/y" resolves
    first. *)
Theorem last_settled_fetch_is_displayed (w : world) (picture_x picture_y : string) :
  let pending := panel_run (idle w) [RefChanged (JStr "/x"); RefChanged (JStr "/y")] in
  map waiting_for (inflight pending) =
    [axios_get_blob "http://localhost:8000/x"; axios_get_blob "http://localhost:8000/y"]
  /\ displayed (panel_run pending [Settled 0 (blob_response picture_x);
                                  Settled 0 (blob_response picture_y)])
     = Some picture_y
  /\ displayed (panel_run pending [Settled 1 (blob_response picture_y);
                                  Settled 0 (blob_response picture_x)])
     = Some picture_x.
Proof.
  cbv zeta. split; [reflexivity|]. split.
  - exact (proj1 (@displayed_after_fetch picture_y
                    (settled (blob_response picture_x)
                       (state (panel_run (idle w)
                                 [RefChanged (JStr "/x"); RefChanged (JStr "/y")])))
                    [] _ eq_refl)).
  - exact (proj1 (@displayed_after_fetch picture_x
                    (settled (blob_response picture_y)
                       (state (panel_run (idle w)
                                 [RefChanged (JStr "/x"); RefChanged (JStr "/y")])))
                    [] _ eq_refl)).
Qed.

(** C7 (as stated) fails: when the fetch for "/y" resolves before the fetch
    for "/x", the picture on screen once both have resolved is the one
    fetched for "/x". *)
Lemma stale_fetch_overwrites_latest :
  displayed (panel_run (idle initial_world)
               [RefChanged (JStr "/x"); RefChanged (JStr "/y");
                Settled 1 (blob_response "picture of y");
                Settled 0 (blob_response "picture of x")])
    = Some "picture of x"
  /\ displayed (panel_run (idle initial_world)
                  [RefChanged (JStr "/x"); RefChanged (JStr "/y");
                   Settled 1 (blob_response "picture of y");
                   Settled 0 (blob_response "picture of x")])
     <> Some "picture of y".
Proof.
  split; [reflexivity|discriminate].
Qed.

(** C10.  Once the display panel holds a non-empty image URL, no sequence of
    panel events empties it again, so the prompt is never shown again; and
    an update of the shared reference to the empty string changes nothing
    in the panel: its image URL, loading flag, error, outstanding fetches and
    issued requests stay as they are. *)
Theorem image_url_never_cleared (w : world) (earlier later : list panel_event) :
  let a := panel_run (idle w) earlier in
  imageUrl (state a) <> "" ->
  let a' := panel_run a later in
  let a'' := panel_step a' (RefChanged (JStr "")) in
  imageUrl (state a') <> ""
  /\ Visualization.render (state a') <> Visualization.Prompt
  /\ imageUrl (state a'') = imageUrl (state a')
  /\ loading (state a'') = loading (state a')
  /\ vis_error (state a'') = vis_error (state a')
  /\ inflight a'' = inflight a'
  /\ sent a'' = sent a'
  /\ unmounted a'' = unmounted a'.
Proof.
  cbv zeta. intros Himg.
  destruct (panel_run_keeps earlier (idle_fetching w)) as [Hf _].
  destruct (panel_run_keeps later Hf) as [_ Hkeep].
  specialize (Hkeep Himg).
  split; [exact Hkeep|]. split; [apply render_holds_image; exact Hkeep|].
  unfold panel_step.
  destruct (unmounted (panel_run (panel_run (idle w) earlier) later)) eqn:Hm.
  - repeat split; try reflexivity; exact Hm.
  - cbn. repeat split; try reflexivity; exact Hm.
Qed.

Lemma image_url_never_cleared_witness :
  let a' := panel_run (idle initial_world)
              [RefChanged (JStr "/x"); Settled 0 (blob_response "picture of x");
               RefChanged (JStr ""); RefChanged (JStr "/y");
               Settled 0 (inl (Error "Network Error"))] in
  imageUrl (state a') <> ""
  /\ Visualization.render (state a') <> Visualization.Prompt.
Proof.
  pose proof (@image_url_never_cleared initial_world
                [RefChanged (JStr "/x"); Settled 0 (blob_response "picture of x")]
                [RefChanged (JStr ""); RefChanged (JStr "/y");
                 Settled 0 (inl (Error "Network Error"))]) as H.
  cbv zeta in H. destruct H as (Himg & Hrender & _).
  - discriminate.
  - split; [exact Himg|exact Hrender].
Defined.


(** * Further properties of the panels *)

(** ** The band catalog panel, when its requests resolve *)

(** X1.  When the catalog request of [fetchBands] resolves, one request has
    been issued and shared state is untouched.  An answer with an empty body
    is handled like a rejection: the error notification is shown and the
    mapping is left as it was.  Any other answer is stored without further
    checks and without a notification: the mapping becomes the body's [data]
    field, [undefined] when the body has none. *)
Theorem fetchBands_resolved
  (be : backend) (w : world) (served : list request) (r : response) :
  be served catalog_request = inr r ->
  exists w',
    run be SpectralBands.fetchBands w served =
      (w', (served ++ [catalog_request])%list, inr tt)
    /\ context w' = context w
    /\ (nullish (data r) = true ->
        bands w' = bands w
        /\ toasts w' = (toasts w ++ [SpectralBands.fetch_failed_toast])%list)
    /\ (nullish (data r) = false ->
        bands w' = field (data r) "data" /\ toasts w' = toasts w).
Proof.
  intros Hres. unfold SpectralBands.fetchBands. cbn. rewrite Hres. cbn.
  unfold get. destruct (nullish (data r)) eqn:Hnull; cbn.
  - eexists. split; [reflexivity|]. cbn. repeat split; congruence.
  - eexists. split; [reflexivity|]. cbn. repeat split; congruence.
Qed.

Lemma fetchBands_resolved_witness :
  exists w',
    run backend_catalog SpectralBands.fetchBands initial_world [] =
      (w', [catalog_request], inr tt)
    /\ bands w' = sample_catalog
    /\ toasts w' = [].
Proof.
  destruct (@fetchBands_resolved backend_catalog initial_world [] _ eq_refl)
    as (w' & Hrun & _ & _ & Hstored).
  destruct (Hstored eq_refl) as [Hbands Htoasts].
  exists w'. repeat split; assumption.
Defined.

(** X2.  Whatever the backend answers, a run of [handleBandSelect] returns
    normally having issued exactly one request (the conversion of the chosen
    band) and shown exactly one notification; the chosen band is recorded
    both in the panel and in shared state, and the catalog mapping is not
    touched. *)
Theorem handleBandSelect_always
  (be : backend) (w : world) (served : list request) (bandName : string) :
  exists w' t,
    run be (SpectralBands.handleBandSelect bandName) w served =
      (w', (served ++ [convert_request bandName])%list, inr tt)
    /\ toasts w' = (toasts w ++ [t])%list
    /\ sb_selectedBand w' = bandName
    /\ selectedBand (context w') = bandName
    /\ bands w' = bands w.
Proof.
  destruct (be served (convert_request bandName)) as [e|r] eqn:Hconv.
  - rewrite (handleBandSelect_rejected be w served bandName Hconv).
    do 2 eexists. split; [reflexivity|]. cbn. repeat split; reflexivity.
  - rewrite (handleBandSelect_resolved be w served bandName Hconv).
    do 2 eexists. split; [reflexivity|]. cbn. repeat split; reflexivity.
Qed.

(** X3.  When the conversion request of [handleBandSelect] resolves, whatever
    its body, the shared state becomes: reference [/api/visualize/<band>],
    kind [band], selected band the chosen one; and the notification shown is
    the success one. *)
Theorem handleBandSelect_success
  (be : backend) (w : world) (served : list request) (bandName : string)
  (r : response) :
  be served (convert_request bandName) = inr r ->
  exists w',
    run be (SpectralBands.handleBandSelect bandName) w served =
      (w', (served ++ [convert_request bandName])%list, inr tt)
    /\ context w' = mkContext (JStr ("/api/visualize/" ++ bandName)) band bandName
    /\ toasts w' = (toasts w ++ [SpectralBands.converted_toast])%list
    /\ status SpectralBands.converted_toast = success.
Proof.
  intros Hconv. rewrite (handleBandSelect_resolved be w served bandName Hconv).
  eexists. split; [reflexivity|]. cbn. repeat split; reflexivity.
Qed.

Lemma handleBandSelect_success_witness :
  exists w',
    run backend_ok (SpectralBands.handleBandSelect "IMG_TIR1") initial_world [] =
      (w', [convert_request "IMG_TIR1"], inr tt)
    /\ context w' = mkContext (JStr "/api/visualize/IMG_TIR1") band "IMG_TIR1".
Proof.
  destruct (@handleBandSelect_success backend_ok initial_world [] "IMG_TIR1" _ eq_refl)
    as (w' & Hrun & Hctx & _).
  exists w'. split; assumption.
Defined.

(** ** The band arithmetic panel, beyond the ratio *)

Lemma completed_is_not_failed (e : exn) (l : list toast_options) :
  (l ++ [BandManipulations.failed_toast e])%list
    <> (l ++ [BandManipulations.completed_toast])%list.
Proof. intros H. apply app_inv_head in H. discriminate. Qed.

Lemma completed_is_not_warning (l : list toast_options) :
  (l ++ [BandManipulations.select_both_toast])%list
    <> (l ++ [BandManipulations.completed_toast])%list.
Proof. intros H. apply app_inv_head in H. discriminate. Qed.

(** A run that ends with the completion notification had both operands
    chosen and went through every step. *)
Lemma completed_run_inv
  (be : backend) (w w' : world) (served served' : list request)
  (operation band1 band2 : string) (res : exn + unit) :
  run be (BandManipulations.handleCalculate operation band1 band2) w served
    = (w', served', res) ->
  toasts w' = (toasts w ++ [BandManipulations.completed_toast])%list ->
  band1 <> "" /\ band2 <> ""
  /\ first_failure be served operation band1 band2 = None.
Proof.
  intros Hrun Hdone.
  destruct (string_dec band1 "") as [H1|H1].
  { rewrite (@handleCalculate_unset operation band1 band2 (or_introl H1)) in Hrun.
    cbn in Hrun. inversion Hrun; subst. cbn in Hdone.
    destruct (completed_is_not_warning _ Hdone). }
  destruct (string_dec band2 "") as [H2|H2].
  { rewrite (@handleCalculate_unset operation band1 band2 (or_intror H2)) in Hrun.
    cbn in Hrun. inversion Hrun; subst. cbn in Hdone.
    destruct (completed_is_not_warning _ Hdone). }
  repeat split; try assumption.
  destruct (first_failure be served operation band1 band2) as [[n e]|] eqn:Hfail;
    [|reflexivity].
  rewrite (handleCalculate_run be w served operation H1 H2), Hfail in Hrun.
  inversion Hrun; subst. cbn in Hdone.
  destruct (completed_is_not_failed _ _ Hdone).
Qed.

(** X4.  Every operation other than the string "ratio" (the select offers
    "difference", but nothing is checked) is sent to the difference endpoint:
    a run that ends with the completion notification has issued exactly
    POST [/api/convert/<band1>], POST [/api/convert/<band2>] (both without a
    body), GET [/api/bands], and one POST to [/api/manipulate/difference]
    with body {band1, band2}, in that order. *)
Theorem difference_request_sequence
  (be : backend) (w w' : world) (served served' : list request)
  (operation band1 band2 : string) (res : exn + unit) :
  operation <> "ratio" ->
  run be (BandManipulations.handleCalculate operation band1 band2) w served
    = (w', served', res) ->
  toasts w' =
    (toasts w ++ [mkToast "Calculation completed" JUndefined success 2000 true])%list ->
  served' =
    (served ++
       [mkRequest POST ("http://localhost:8000/api/convert/" ++ band1) JUndefined json;
        mkRequest POST ("http://localhost:8000/api/convert/" ++ band2) JUndefined json;
        mkRequest GET "http://localhost:8000/api/bands" JUndefined json;
        mkRequest POST "http://localhost:8000/api/manipulate/difference"
                  (JObj [("band1", JStr band1); ("band2", JStr band2)]) json])%list.
Proof.
  intros Hop Hrun Hdone.
  destruct (completed_run_inv _ _ _ _ _ _ Hrun Hdone) as (H1 & H2 & Hnone).
  destruct (handleCalculate_completes be w served operation H1 H2 Hnone)
    as (r & _ & _ & Hrun').
  rewrite Hrun' in Hrun. inversion Hrun; subst.
  unfold arithmetic_steps, BandManipulations.manipulate_request,
    BandManipulations.endpoint, BandManipulations.payload.
  destruct (String.eqb_spec operation "ratio") as [Heq|_]; [contradiction|].
  reflexivity.
Qed.

Lemma difference_request_sequence_witness :
  snd (fst (run backend_ok
              (BandManipulations.handleCalculate "difference" "IMG_TIR1" "IMG_TIR2")
              initial_world [])) =
    [mkRequest POST "http://localhost:8000/api/convert/IMG_TIR1" JUndefined json;
     mkRequest POST "http://localhost:8000/api/convert/IMG_TIR2" JUndefined json;
     mkRequest GET "http://localhost:8000/api/bands" JUndefined json;
     mkRequest POST "http://localhost:8000/api/manipulate/difference"
               (JObj [("band1", JStr "IMG_TIR1"); ("band2", JStr "IMG_TIR2")]) json].
Proof.
  refine (@difference_request_sequence backend_ok initial_world _ [] _
            "difference" "IMG_TIR1" "IMG_TIR2" _ _ eq_refl eq_refl).
  discriminate.
Defined.

(** X5.  A run of the arithmetic action in which no step fails publishes the
    path found in the answer with kind [manipulation], leaves the shared
    selected band alone, shows the completion notification and ends with
    the panel's loading flag off. *)
Theorem handleCalculate_success
  (be : backend) (w : world) (served : list request) (operation band1 band2 : string) :
  band1 <> "" -> band2 <> "" ->
  first_failure be served operation band1 band2 = None ->
  exists w' r,
    run be (BandManipulations.handleCalculate operation band1 band2) w served =
      (w', (served ++ arithmetic_steps operation band1 band2)%list, inr tt)
    /\ manipulation_answer be served operation band1 band2 = inr r
    /\ context w' =
         mkContext (returned_path r) manipulation (selectedBand (context w))
    /\ toasts w' = (toasts w ++ [BandManipulations.completed_toast])%list
    /\ bm_loading w' = false.
Proof.
  intros H1 H2 Hnone.
  destruct (handleCalculate_completes be w served operation H1 H2 Hnone)
    as (r & Hanswer & _ & Hrun).
  exists (after_success (returned_path r) w), r.
  repeat split; assumption || reflexivity.
Qed.

Lemma handleCalculate_success_witness :
  exists w',
    run backend_ok (BandManipulations.handleCalculate "ratio" "IMG_VIS" "IMG_SWIR")
        initial_world [] =
      (w', arithmetic_steps "ratio" "IMG_VIS" "IMG_SWIR", inr tt)
    /\ context w' = mkContext (JStr "/api/visualize/result.png") manipulation "".
Proof.
  destruct (@handleCalculate_success backend_ok initial_world [] "ratio"
              "IMG_VIS" "IMG_SWIR") as (w' & r & Hrun & Hanswer & Hctx & _);
    try discriminate; try reflexivity.
  exists w'. split; [exact Hrun|].
  rewrite Hctx. inversion Hanswer; subst. reflexivity.
Defined.

(** X6.  Whatever the operands and whatever the backend answers, a run of
    the arithmetic action returns normally, shows exactly one notification,
    issues a prefix of at most four of the sequence's requests, and never
    touches the shared selected band, the catalog mapping or the display
    panel's state; with both operands chosen it ends with the loading flag
    off. *)
Theorem handleCalculate_always
  (be : backend) (w : world) (served : list request) (operation band1 band2 : string) :
  exists w' n t,
    run be (BandManipulations.handleCalculate operation band1 band2) w served =
      (w', (served ++ firstn n (arithmetic_steps operation band1 band2))%list, inr tt)
    /\ n <= 4
    /\ toasts w' = (toasts w ++ [t])%list
    /\ selectedBand (context w') = selectedBand (context w)
    /\ bands w' = bands w
    /\ sb_selectedBand w' = sb_selectedBand w
    /\ imageUrl w' = imageUrl w
    /\ loading w' = loading w
    /\ vis_error w' = vis_error w
    /\ (band1 <> "" -> band2 <> "" -> bm_loading w' = false).
Proof.
  assert (Hunset : band1 = "" \/ band2 = "" ->
    exists w' n t,
      run be (BandManipulations.handleCalculate operation band1 band2) w served =
        (w', (served ++ firstn n (arithmetic_steps operation band1 band2))%list, inr tt)
      /\ n <= 4
      /\ toasts w' = (toasts w ++ [t])%list
      /\ selectedBand (context w') = selectedBand (context w)
      /\ bands w' = bands w
      /\ sb_selectedBand w' = sb_selectedBand w
      /\ imageUrl w' = imageUrl w
      /\ loading w' = loading w
      /\ vis_error w' = vis_error w
      /\ (band1 <> "" -> band2 <> "" -> bm_loading w' = false)).
  { intros Hu. rewrite (@handleCalculate_unset operation band1 band2 Hu).
    exists (apply_action (Toast BandManipulations.select_both_toast) w), 0,
      BandManipulations.select_both_toast.
    cbn. rewrite app_nil_r. repeat split; try reflexivity; try lia.
    intros; tauto. }
  destruct (string_dec band1 "") as [H1|H1]; [apply Hunset; tauto|].
  destruct (string_dec band2 "") as [H2|H2]; [apply Hunset; tauto|].
  clear Hunset.
  destruct (first_failure be served operation band1 band2) as [[n e]|] eqn:Hfail.
  - rewrite (handleCalculate_run be w served operation H1 H2), Hfail.
    pose proof (first_failure_bound _ _ _ _ _ Hfail) as Hn.
    exists (after_failure e w), n, (BandManipulations.failed_toast e).
    repeat split; try reflexivity; lia.
  - destruct (handleCalculate_completes be w served operation H1 H2 Hfail)
      as (r & _ & _ & Hrun).
    rewrite Hrun.
    exists (after_success (returned_path r) w), 4, BandManipulations.completed_toast.
    repeat split; try reflexivity; lia.
Qed.

(** X7.  The catalog re-check is only a probe: its answer is logged and never
    read.  Two backends that answer the two conversions and the arithmetic
    request alike, and that both answer the re-check, lead to the same run,
    whatever the two re-check answers contain. *)
Theorem catalog_answer_is_ignored
  (be1 be2 : backend) (w : world) (served : list request)
  (operation band1 band2 : string) (r1 r2 : response) :
  be1 served (convert_request band1) = be2 served (convert_request band1) ->
  be1 (served ++ [convert_request band1])%list (convert_request band2)
    = be2 (served ++ [convert_request band1])%list (convert_request band2) ->
  be1 ((served ++ [convert_request band1]) ++ [convert_request band2])%list
      catalog_request = inr r1 ->
  be2 ((served ++ [convert_request band1]) ++ [convert_request band2])%list
      catalog_request = inr r2 ->
  manipulation_answer be1 served operation band1 band2
    = manipulation_answer be2 served operation band1 band2 ->
  run be1 (BandManipulations.handleCalculate operation band1 band2) w served
    = run be2 (BandManipulations.handleCalculate operation band1 band2) w served.
Proof.
  intros Hc1 Hc2 Hcat1 Hcat2 Hm.
  destruct (string_dec band1 "") as [H1|H1].
  { rewrite (@handleCalculate_unset operation band1 band2 (or_introl H1)).
    reflexivity. }
  destruct (string_dec band2 "") as [H2|H2].
  { rewrite (@handleCalculate_unset operation band1 band2 (or_intror H2)).
    reflexivity. }
  rewrite !(fun be => handleCalculate_run be w served operation H1 H2).
  assert (Hsame : first_failure be1 served operation band1 band2
                  = first_failure be2 served operation band1 band2).
  { unfold first_failure. rewrite Hc1, Hc2, Hcat1, Hcat2, Hm. reflexivity. }
  rewrite Hsame, Hm. reflexivity.
Qed.

Lemma catalog_answer_is_ignored_witness :
  run backend_ok (BandManipulations.handleCalculate "ratio" "IMG_VIS" "IMG_SWIR")
      initial_world []
  = run backend_blank_catalog
      (BandManipulations.handleCalculate "ratio" "IMG_VIS" "IMG_SWIR")
      initial_world [].
Proof.
  exact (@catalog_answer_is_ignored backend_ok backend_blank_catalog initial_world []
           "ratio" "IMG_VIS" "IMG_SWIR" _ _ eq_refl eq_refl eq_refl eq_refl eq_refl).
Defined.

(** ** The display panel: loading, failure, and what is kept *)

Lemma remote_reference_step (a : page) (s : string) :
  unmounted a = false ->
  s <> "" ->
  String.prefix "blob:" s = false ->
  exists k,
    panel_step a (RefChanged (JStr s)) =
      mkPage (apply_action (SetError "")
                (apply_action (SetLoading true)
                   (apply_action (SetVisualizationUrl (JStr s)) (state a))))
             (inflight a ++ [mkTask (axios_get_blob ("http://localhost:8000" ++ s)) k])
             (sent a ++ [axios_get_blob ("http://localhost:8000" ++ s)])
             false
    /\ fetch_task (mkTask (axios_get_blob ("http://localhost:8000" ++ s)) k).
Proof.
  intros Hmounted Hs Hblob.
  assert (Htruthy : truthy (JStr s) = true).
  { destruct (truthy (JStr s)) eqn:Ht; [reflexivity|].
    apply truthy_JStr in Ht. contradiction. }
  destruct (loadImageFromApi_suspends
              (apply_action (SetVisualizationUrl (JStr s)) (state a)) s)
    as (k & Hexec & Hk).
  exists k. split; [|exact Hk].
  unfold panel_step. rewrite Hmounted. cbv zeta. cbn [state].
  rewrite published_reference. unfold Visualization.effect.
  rewrite Htruthy, Hblob. unfold launch. cbn [state].
  rewrite Hexec. cbn [inflight sent unmounted]. reflexivity.
Qed.

Lemma settle_last (w : world) (ts : list task) (rs : list request)
  (t : task) (o : outcome) :
  fetch_task t ->
  panel_step (mkPage w (ts ++ [t]) rs false) (Settled (length ts) o) =
    mkPage (settled o w) ts rs false.
Proof.
  intros Ht. unfold panel_step, settle. cbn [unmounted inflight state sent].
  rewrite nth_error_app2, Nat.sub_diag by lia. cbn [nth_error].
  unfold launch. cbn [state]. rewrite (Ht _ _).
  cbn [inflight sent unmounted]. rewrite remove_nth_last. reflexivity.
Qed.

(** X8.  Observing a non-empty reference that is not a [blob:] URL puts the
    panel in its loading state at once: the spinner is shown, an earlier
    error is cleared, the image URL held so far is kept, and one binary GET
    of that path is outstanding. *)
Theorem remote_reference_loading (a : page) (s : string) :
  unmounted a = false ->
  s <> "" ->
  String.prefix "blob:" s = false ->
  let a' := panel_step a (RefChanged (JStr s)) in
  Visualization.render (state a') = Visualization.Spinner
  /\ vis_error (state a') = ""
  /\ imageUrl (state a') = imageUrl (state a)
  /\ sent a' = (sent a ++ [axios_get_blob ("http://localhost:8000" ++ s)])%list
  /\ length (inflight a') = S (length (inflight a)).
Proof.
  intros Hmounted Hs Hblob. cbv zeta.
  destruct (remote_reference_step a Hmounted Hs Hblob) as (k & Hstep & _).
  rewrite Hstep. cbn [state inflight sent].
  rewrite length_app. cbn [length]. repeat split; try reflexivity. lia.
Qed.

Lemma remote_reference_loading_witness :
  Visualization.render
    (state (panel_step (idle initial_world) (RefChanged (JStr "/api/visualize/IMG_WV"))))
  = Visualization.Spinner.
Proof.
  apply (@remote_reference_loading (idle initial_world) "/api/visualize/IMG_WV");
    [reflexivity|discriminate|reflexivity].
Defined.

(** X9.  When the fetch of a remote reference settles next and does not
    deliver a blob (the request rejects, or resolves with anything else than
    a [Blob]), the panel shows the text "Error loading visualization", is no
    longer loading, keeps the image URL it held, creates no object URL, and
    issues no further request. *)
Theorem remote_reference_failed (a : page) (s : string) (o : outcome) :
  unmounted a = false ->
  s <> "" ->
  String.prefix "blob:" s = false ->
  (forall content, o <> blob_response content) ->
  let a' := panel_step a (RefChanged (JStr s)) in
  let a'' := panel_step a' (Settled (length (inflight a)) o) in
  Visualization.render (state a'') =
    Visualization.ErrorText "Error loading visualization"
  /\ imageUrl (state a'') = imageUrl (state a)
  /\ objectURLs (state a'') = objectURLs (state a)
  /\ sent a'' = sent a'
  /\ inflight a'' = inflight a.
Proof.
  intros Hmounted Hs Hblob Hfail. cbv zeta.
  destruct (remote_reference_step a Hmounted Hs Hblob) as (k & Hstep & Hk).
  rewrite Hstep, (settle_last _ _ _ o Hk). cbn [state sent inflight].
  destruct o as [e|[d]]; [repeat split; reflexivity|].
  destruct d; try (repeat split; reflexivity).
  destruct (Hfail content). reflexivity.
Qed.

Lemma remote_reference_failed_witness :
  Visualization.render
    (state (panel_step
              (panel_step (idle initial_world) (RefChanged (JStr "/api/visualize/IMG_WV")))
              (Settled 0 (inr (mkResponse (JObj [("detail", JStr "Not Found")]))))))
  = Visualization.ErrorText "Error loading visualization".
Proof.
  apply (@remote_reference_failed (idle initial_world) "/api/visualize/IMG_WV"
           (inr (mkResponse (JObj [("detail", JStr "Not Found")]))));
    [reflexivity|discriminate|reflexivity|discriminate].
Defined.

Lemma loading_settled (o : outcome) (w : world) : loading (settled o w) = false.
Proof.
  destruct o as [e|[d]]; [reflexivity|]. destruct d; reflexivity.
Qed.

Lemma remove_nth_length {A : Type} (l : list A) (i : nat) :
  i < length l -> length (remove_nth i l) = length l - 1.
Proof.
  revert i. induction l as [|x l IH]; intros i Hi; cbn in Hi; [lia|].
  destruct i as [|i]; cbn; [lia|].
  rewrite IH by lia. lia.
Qed.

(** X10.  Every settlement switches the spinner off, also while other
    fetches are still outstanding: after any outstanding fetch of a mounted
    panel settles, with whatever outcome, the loading flag is off, the other
    fetches are still outstanding, and nothing is requested again. *)
Theorem any_settlement_clears_spinner
  (w : world) (evs : list panel_event) (i : nat) (o : outcome) :
  let a := panel_run (idle w) evs in
  unmounted a = false ->
  i < length (inflight a) ->
  let a' := panel_step a (Settled i o) in
  loading (state a') = false
  /\ Visualization.render (state a') <> Visualization.Spinner
  /\ length (inflight a') = length (inflight a) - 1
  /\ sent a' = sent a.
Proof.
  cbv zeta. intros Hmounted Hi.
  destruct (panel_run_keeps evs (idle_fetching w)) as [Hf _].
  destruct (nth_error (inflight (panel_run (idle w) evs)) i) as [t|] eqn:Hnth.
  2:{ apply nth_error_None in Hnth. lia. }
  unfold panel_step. rewrite Hmounted, (settle_fetch i o Hf Hnth).
  cbn [state inflight sent].
  split; [apply loading_settled|].
  split.
  { unfold Visualization.render. rewrite loading_settled.
    destruct (truthy (JStr (vis_error (settled o (state (panel_run (idle w) evs))))));
      [discriminate|].
    destruct (truthy (JStr (imageUrl (settled o (state (panel_run (idle w) evs))))));
      discriminate. }
  split; [apply remove_nth_length; exact Hi|reflexivity].
Qed.

Lemma any_settlement_clears_spinner_witness :
  let a := panel_run (idle initial_world)
             [RefChanged (JStr "/x"); RefChanged (JStr "/y")] in
  let a' := panel_step a (Settled 0 (blob_response "picture of x")) in
  loading (state a') = false /\ length (inflight a') = 1.
Proof.
  cbv zeta.
  destruct (@any_settlement_clears_spinner initial_world
              [RefChanged (JStr "/x"); RefChanged (JStr "/y")] 0
              (blob_response "picture of x")) as (Hloading & _ & Hleft & _).
  - reflexivity.
  - cbn. lia.
  - split; [exact Hloading|exact Hleft].
Defined.

(** X12.  [loadVisualization band], which nothing calls, does to the panel
    what observing the reference [/api/visualize/<band>] does: the same
    request is issued, the same loading state is entered, and whatever the
    outcome of the request the panel ends with the same image URL, loading
    flag and error. *)
Theorem loadVisualization_matches_effect (a : page) (bandName : string) (o : outcome) :
  unmounted a = false ->
  let a1 := panel_step a (BandRequested bandName) in
  let a2 := panel_step a (RefChanged (JStr ("/api/visualize/" ++ bandName))) in
  let b1 := panel_step a1 (Settled (length (inflight a)) o) in
  let b2 := panel_step a2 (Settled (length (inflight a)) o) in
  sent a1 = sent a2
  /\ map waiting_for (inflight a1) = map waiting_for (inflight a2)
  /\ Visualization.render (state a1) = Visualization.render (state a2)
  /\ imageUrl (state b1) = imageUrl (state b2)
  /\ loading (state b1) = loading (state b2)
  /\ vis_error (state b1) = vis_error (state b2)
  /\ objectURLs (state b1) = objectURLs (state b2).
Proof.
  intros Hmounted. cbv zeta.
  assert (Hpath : "/api/visualize/" ++ bandName <> "") by discriminate.
  destruct (remote_reference_step a Hmounted Hpath eq_refl) as (k2 & Hstep2 & Hk2).
  rewrite Hstep2, (settle_last _ _ _ o Hk2).
  destruct (loadVisualization_suspends (state a) bandName) as (k1 & Hexec & Hk1).
  assert (Hstep1 : panel_step a (BandRequested bandName) =
    mkPage (apply_action (SetError "") (apply_action (SetLoading true) (state a)))
           (inflight a ++
              [mkTask (axios_get_blob ("http://localhost:8000/api/visualize/" ++ bandName))
                      k1])
           (sent a ++ [axios_get_blob ("http://localhost:8000/api/visualize/" ++ bandName)])
           false).
  { unfold panel_step. rewrite Hmounted. unfold launch. rewrite Hexec.
    rewrite Hmounted. reflexivity. }
  rewrite Hstep1, (settle_last _ _ _ o Hk1). cbn [state sent inflight].
  rewrite !map_app.
  split; [reflexivity|]. split; [reflexivity|]. split; [reflexivity|].
  destruct o as [e|[d]]; [repeat split; reflexivity|].
  destruct d; repeat split; reflexivity.
Qed.

Lemma loadVisualization_matches_effect_witness :
  sent (panel_step (idle initial_world) (BandRequested "IMG_MIR"))
  = sent (panel_step (idle initial_world) (RefChanged (JStr "/api/visualize/IMG_MIR"))).
Proof.
  exact (proj1 (@loadVisualization_matches_effect (idle initial_world) "IMG_MIR"
                  (inl (Error "Network Error")) eq_refl)).
Defined.

(** ** From a selection to the picture *)






(** ** The statistics panel *)

Lemma loadStatistics_suspends (s : DataStatistics.panel) (bandName : string) :
  exists k,
    DataStatistics.exec (DataStatistics.loadStatistics bandName) s =
      (DataStatistics.apply_action (DataStatistics.SetError "")
         (DataStatistics.apply_action (DataStatistics.SetLoading true) s),
       DataStatistics.Blocked (DataStatistics.statistics_request bandName) k)
    /\ DataStatistics.stats_task
         (DataStatistics.mkTask (DataStatistics.statistics_request bandName) k).
Proof.
  eexists. split.
  - reflexivity.
  - intros [e|r] s0; cbn; [reflexivity|].
    destruct (truthy (data r) && truthy (field (data r) "data")); reflexivity.
Qed.

Lemma band_changed_step (a : DataStatistics.page) (bandName : string) :
  bandName <> "" ->
  exists k,
    DataStatistics.step a (DataStatistics.BandChanged bandName) =
      DataStatistics.mkPage
        (DataStatistics.apply_action (DataStatistics.SetError "")
           (DataStatistics.apply_action (DataStatistics.SetLoading true)
              (DataStatistics.state a)))
        (DataStatistics.inflight a
           ++ [DataStatistics.mkTask (DataStatistics.statistics_request bandName) k])
        (DataStatistics.sent a ++ [DataStatistics.statistics_request bandName])
    /\ DataStatistics.stats_task
         (DataStatistics.mkTask (DataStatistics.statistics_request bandName) k).
Proof.
  intros Hband.
  assert (Htruthy : truthy (JStr bandName) = true).
  { destruct (truthy (JStr bandName)) eqn:Ht; [reflexivity|].
    apply truthy_JStr in Ht. contradiction. }
  destruct (loadStatistics_suspends (DataStatistics.state a) bandName)
    as (k & Hexec & Hk).
  exists k. split; [|exact Hk].
  unfold DataStatistics.step, DataStatistics.effect, DataStatistics.launch.
  rewrite Htruthy, Hexec. reflexivity.
Qed.

Lemma settle_stats (a : DataStatistics.page) (i : nat) (o : outcome)
  (t : DataStatistics.task) :
  DataStatistics.loading_stats a ->
  nth_error (DataStatistics.inflight a) i = Some t ->
  DataStatistics.step a (DataStatistics.Settled i o) =
    DataStatistics.mkPage
      (DataStatistics.settled o (DataStatistics.state a))
      (remove_nth i (DataStatistics.inflight a))
      (DataStatistics.sent a).
Proof.
  intros Hf Hnth.
  unfold DataStatistics.step, DataStatistics.settle, DataStatistics.launch.
  rewrite Hnth.
  assert (Ht : DataStatistics.stats_task t).
  { unfold DataStatistics.loading_stats in Hf. rewrite Forall_forall in Hf.
    apply Hf. eapply nth_error_In. exact Hnth. }
  cbn [DataStatistics.state]. rewrite (Ht o (DataStatistics.state a)). reflexivity.
Qed.

Lemma settle_stats_last (s : DataStatistics.panel) (ts : list DataStatistics.task)
  (rs : list request) (t : DataStatistics.task) (o : outcome) :
  DataStatistics.stats_task t ->
  DataStatistics.step (DataStatistics.mkPage s (ts ++ [t]) rs)
                      (DataStatistics.Settled (length ts) o) =
    DataStatistics.mkPage (DataStatistics.settled o s) ts rs.
Proof.
  intros Ht.
  unfold DataStatistics.step, DataStatistics.settle, DataStatistics.launch.
  cbn [DataStatistics.inflight DataStatistics.state DataStatistics.sent].
  rewrite nth_error_app2, Nat.sub_diag by lia. cbn [nth_error].
  rewrite (Ht _ _). rewrite remove_nth_last. reflexivity.
Qed.

Lemma stats_step_keeps (a : DataStatistics.page) (ev : DataStatistics.event) :
  DataStatistics.loading_stats a ->
  DataStatistics.loading_stats (DataStatistics.step a ev).
Proof.
  intros Hf. destruct ev as [b|i o].
  - destruct (string_dec b "") as [->|Hb]; [exact Hf|].
    destruct (band_changed_step a Hb) as (k & Hstep & Hk). rewrite Hstep.
    unfold DataStatistics.loading_stats. cbn [DataStatistics.inflight].
    apply Forall_app. split; [exact Hf|]. constructor; [exact Hk|constructor].
  - destruct (nth_error (DataStatistics.inflight a) i) as [t|] eqn:Hnth.
    + rewrite (settle_stats i o Hf Hnth).
      unfold DataStatistics.loading_stats. cbn [DataStatistics.inflight].
      apply remove_nth_Forall. exact Hf.
    + unfold DataStatistics.step, DataStatistics.settle. rewrite Hnth. exact Hf.
Qed.

Lemma stats_run_keeps (evs : list DataStatistics.event) (a : DataStatistics.page) :
  DataStatistics.loading_stats a ->
  DataStatistics.loading_stats (DataStatistics.run_events a evs).
Proof.
  revert a. induction evs as [|ev evs IH]; intros a Hf; cbn; [exact Hf|].
  apply IH. apply stats_step_keeps. exact Hf.
Qed.

Lemma idle_loading_stats (s : DataStatistics.panel) :
  DataStatistics.loading_stats (DataStatistics.idle s).
Proof. constructor. Qed.

(** X14.  A selection change to a non-empty band issues one GET of
    [/api/statistics/<band>]; when it settles next with a body whose [data]
    field is truthy, that field becomes the panel's statistics as it is (its
    shape is not looked at), the error is empty and the panel is not loading. *)
Theorem statistics_loaded
  (a : DataStatistics.page) (bandName : string) (r : response) :
  bandName <> "" ->
  truthy (data r) = true ->
  truthy (field (data r) "data") = true ->
  let a' := DataStatistics.step a (DataStatistics.BandChanged bandName) in
  let a'' := DataStatistics.step a'
               (DataStatistics.Settled (length (DataStatistics.inflight a)) (inr r)) in
  DataStatistics.sent a' =
    (DataStatistics.sent a
       ++ [axios_get ("http://localhost:8000/api/statistics/" ++ bandName)])%list
  /\ DataStatistics.render (DataStatistics.state a') = inr DataStatistics.Spinner
  /\ DataStatistics.state a'' =
       DataStatistics.mkPanel (field (data r) "data") false ""
  /\ DataStatistics.sent a'' = DataStatistics.sent a'
  /\ DataStatistics.inflight a'' = DataStatistics.inflight a.
Proof.
  intros Hband Hdata Hinner. cbv zeta.
  destruct (band_changed_step a Hband) as (k & Hstep & Hk).
  rewrite Hstep, (settle_stats_last _ _ _ (inr r) Hk).
  cbn [DataStatistics.sent DataStatistics.state DataStatistics.inflight].
  unfold DataStatistics.settled. rewrite Hdata, Hinner.
  repeat split; reflexivity.
Qed.

Lemma statistics_loaded_witness :
  DataStatistics.state
    (DataStatistics.run_events (DataStatistics.idle DataStatistics.initial_panel)
       [DataStatistics.BandChanged "IMG_VIS";
        DataStatistics.Settled 0
          (DataStatistics.stats_response
             (JObj [("minimum", JNum 0); ("maximum", JNum 1023);
                    ("mean", JNum 212); ("std", JNum 57)]))])
  = DataStatistics.mkPanel
      (JObj [("minimum", JNum 0); ("maximum", JNum 1023);
             ("mean", JNum 212); ("std", JNum 57)])
      false "".
Proof.
  refine (proj1 (proj2 (proj2
    (@statistics_loaded (DataStatistics.idle DataStatistics.initial_panel) "IMG_VIS"
       (mkResponse (JObj [("data", JObj [("minimum", JNum 0); ("maximum", JNum 1023);
                                         ("mean", JNum 212); ("std", JNum 57)])]))
       _ eq_refl eq_refl)))).
  discriminate.
Defined.

(** X15.  When the statistics request settles next without a usable body,
    the panel shows an error text and keeps the statistics it held: "Failed
    to load statistics" when the request rejects, "Statistics data format is
    invalid" when it resolves with a falsy body or a falsy [data] field.
    It is no longer loading and requests nothing more. *)
Theorem statistics_failed
  (a : DataStatistics.page) (bandName : string) (o : outcome) :
  bandName <> "" ->
  let a' := DataStatistics.step a (DataStatistics.BandChanged bandName) in
  let a'' := DataStatistics.step a'
               (DataStatistics.Settled (length (DataStatistics.inflight a)) o) in
  (forall e, o = inl e ->
     DataStatistics.state a'' =
       DataStatistics.mkPanel (DataStatistics.stats (DataStatistics.state a))
                              false "Failed to load statistics"
     /\ DataStatistics.render (DataStatistics.state a'') =
          inr (DataStatistics.ErrorText "Failed to load statistics"))
  /\ (forall r, o = inr r ->
        truthy (data r) && truthy (field (data r) "data") = false ->
        DataStatistics.state a'' =
          DataStatistics.mkPanel (DataStatistics.stats (DataStatistics.state a))
                                 false "Statistics data format is invalid"
        /\ DataStatistics.render (DataStatistics.state a'') =
             inr (DataStatistics.ErrorText "Statistics data format is invalid"))
  /\ DataStatistics.sent a'' = DataStatistics.sent a'
  /\ DataStatistics.inflight a'' = DataStatistics.inflight a.
Proof.
  intros Hband. cbv zeta.
  destruct (band_changed_step a Hband) as (k & Hstep & Hk).
  rewrite Hstep, (settle_stats_last _ _ _ o Hk).
  cbn [DataStatistics.sent DataStatistics.state DataStatistics.inflight].
  split; [intros e ->; split; reflexivity|].
  split; [|split; reflexivity].
  intros r -> Hbad. unfold DataStatistics.settled. rewrite Hbad.
  split; reflexivity.
Qed.

Lemma statistics_failed_witness :
  DataStatistics.render
    (DataStatistics.state
       (DataStatistics.run_events (DataStatistics.idle DataStatistics.initial_panel)
          [DataStatistics.BandChanged "IMG_VIS";
           DataStatistics.Settled 0 (inr (mkResponse (JObj [("data", JNull)])))]))
  = inr (DataStatistics.ErrorText "Statistics data format is invalid").
Proof.
  destruct (@statistics_failed (DataStatistics.idle DataStatistics.initial_panel)
              "IMG_VIS" (inr (mkResponse (JObj [("data", JNull)]))))
    as (_ & Hinvalid & _).
  - discriminate.
  - exact (proj2 (Hinvalid _ eq_refl eq_refl)).
Defined.

Lemma stats_sent_step (a : DataStatistics.page) (ev : DataStatistics.event) :
  DataStatistics.loading_stats a ->
  DataStatistics.sent (DataStatistics.step a ev) =
    (DataStatistics.sent a
       ++ map DataStatistics.statistics_request (DataStatistics.selections [ev]))%list.
Proof.
  intros Hf. destruct ev as [b|i o]; cbn [DataStatistics.selections].
  - destruct (string_dec b "") as [->|Hb].
    + cbn. rewrite app_nil_r. reflexivity.
    + destruct (band_changed_step a Hb) as (k & Hstep & _). rewrite Hstep.
      destruct (truthy (JStr b)) eqn:Ht; [reflexivity|].
      apply truthy_JStr in Ht. contradiction.
  - cbn [map]. rewrite app_nil_r.
    destruct (nth_error (DataStatistics.inflight a) i) as [t|] eqn:Hnth.
    + rewrite (settle_stats i o Hf Hnth). reflexivity.
    + unfold DataStatistics.step, DataStatistics.settle. rewrite Hnth. reflexivity.
Qed.

Lemma shown_rendered (x : DataStatistics.session) :
  DataStatistics.shown (DataStatistics.rendered x) = DataStatistics.shown x
  /\ DataStatistics.held (DataStatistics.rendered x) = DataStatistics.held x.
Proof.
  unfold DataStatistics.rendered.
  destruct (DataStatistics.render _); split; reflexivity.
Qed.

Lemma drive_torn (ins : list DataStatistics.input) (x : DataStatistics.session) :
  DataStatistics.torn x = true -> DataStatistics.drive x ins = x.
Proof.
  intros Ht. induction ins as [|inp ins IH]; [reflexivity|].
  cbn. unfold DataStatistics.drive_step at 2. rewrite Ht. exact IH.
Qed.

Lemma drive_sent (ins : list DataStatistics.input) (x : DataStatistics.session) :
  DataStatistics.loading_stats (DataStatistics.shown x) ->
  DataStatistics.torn (DataStatistics.drive x ins) = false ->
  DataStatistics.sent (DataStatistics.shown (DataStatistics.drive x ins)) =
    (DataStatistics.sent (DataStatistics.shown x)
       ++ map DataStatistics.statistics_request
            (DataStatistics.requested (DataStatistics.held x) ins))%list.
Proof.
  revert x. induction ins as [|inp ins IH]; intros x Hf Hfinal.
  - cbn. rewrite app_nil_r. reflexivity.
  - destruct (DataStatistics.torn x) eqn:Ht.
    { rewrite (drive_torn _ _ Ht) in Hfinal. congruence. }
    cbn [DataStatistics.drive fold_left] in *.
    change (fold_left DataStatistics.drive_step ins ?y)
      with (DataStatistics.drive y ins) in *.
    unfold DataStatistics.drive_step at 1 in Hfinal.
    unfold DataStatistics.drive_step at 1. rewrite Ht in *.
    destruct inp as [b|i o]; cbn [DataStatistics.requested].
    + destruct (String.eqb b (DataStatistics.held x)) eqn:Hb.
      * apply IH; assumption.
      * set (x1 := DataStatistics.rendered _) in *.
        destruct (shown_rendered
                    (DataStatistics.mkSession
                       (DataStatistics.step (DataStatistics.shown x)
                          (DataStatistics.BandChanged b)) b false))
          as [Hshown Hheld].
        fold x1 in Hshown, Hheld. cbn [DataStatistics.shown DataStatistics.held]
          in Hshown, Hheld.
        rewrite (IH x1); [|rewrite Hshown; apply stats_step_keeps; exact Hf|exact Hfinal].
        rewrite Hshown, Hheld, (stats_sent_step _ Hf), <- app_assoc.
        cbn [DataStatistics.selections].
        destruct (truthy (JStr b)); cbn [map List.app]; reflexivity.
    + set (x1 := DataStatistics.rendered _) in *.
      destruct (shown_rendered
                  (DataStatistics.mkSession
                     (DataStatistics.step (DataStatistics.shown x)
                        (DataStatistics.Settled i o))
                     (DataStatistics.held x) false))
        as [Hshown Hheld].
      fold x1 in Hshown, Hheld. cbn [DataStatistics.shown DataStatistics.held]
        in Hshown, Hheld.
      rewrite (IH x1); [|rewrite Hshown; apply stats_step_keeps; exact Hf|exact Hfinal].
      rewrite Hshown, Hheld, (stats_sent_step _ Hf).
      cbn [DataStatistics.selections map]. rewrite app_nil_r. reflexivity.
Qed.

(** X16.  As long as no render has thrown, the statistics panel requests once
    per change of the selection to a non-empty band and at no other time:
    over any sequence of selections and settlements that leaves the panel
    mounted, the requests issued are exactly the GETs of
    [/api/statistics/<band>] for the non-empty bands selected that differ
    from the selection before them, in order.  So selecting the band already
    selected requests nothing, a band selected again after another one is
    fetched again (nothing is cached), and no settlement, failed or not, is
    followed by a retry. *)
Theorem one_request_per_selection
  (s : DataStatistics.panel) (selectedBand : string)
  (ins : list DataStatistics.input) :
  let x := DataStatistics.drive (DataStatistics.begin s selectedBand) ins in
  DataStatistics.torn x = false ->
  DataStatistics.sent (DataStatistics.shown x) =
    map (fun b => mkRequest GET ("http://localhost:8000/api/statistics/" ++ b)
                            JUndefined json)
        (DataStatistics.requested selectedBand ins).
Proof.
  cbv zeta. intros Hfinal.
  exact (drive_sent ins (DataStatistics.begin s selectedBand)
           (idle_loading_stats s) Hfinal).
Qed.

Lemma one_request_per_selection_witness :
  DataStatistics.sent
    (DataStatistics.shown
       (DataStatistics.drive (DataStatistics.begin DataStatistics.initial_panel "")
          [DataStatistics.Selected "IMG_VIS";
           DataStatistics.Answered 0 (inl (Error "Network Error"));
           DataStatistics.Selected "IMG_VIS";
           DataStatistics.Selected "IMG_WV";
           DataStatistics.Selected "IMG_VIS"]))
  = [mkRequest GET "http://localhost:8000/api/statistics/IMG_VIS" JUndefined json;
     mkRequest GET "http://localhost:8000/api/statistics/IMG_WV" JUndefined json;
     mkRequest GET "http://localhost:8000/api/statistics/IMG_VIS" JUndefined json].
Proof.
  exact (@one_request_per_selection DataStatistics.initial_panel ""
           [DataStatistics.Selected "IMG_VIS";
            DataStatistics.Answered 0 (inl (Error "Network Error"));
            DataStatistics.Selected "IMG_VIS";
            DataStatistics.Selected "IMG_WV";
            DataStatistics.Selected "IMG_VIS"] eq_refl).
Defined.

Lemma selected_step (a : DataStatistics.page) (h b : string) :
  b <> h ->
  b <> "" ->
  exists k,
    DataStatistics.drive_step (DataStatistics.mkSession a h false)
                              (DataStatistics.Selected b) =
      DataStatistics.mkSession
        (DataStatistics.mkPage
           (DataStatistics.apply_action (DataStatistics.SetError "")
              (DataStatistics.apply_action (DataStatistics.SetLoading true)
                 (DataStatistics.state a)))
           (DataStatistics.inflight a
              ++ [DataStatistics.mkTask (DataStatistics.statistics_request b) k])
           (DataStatistics.sent a ++ [DataStatistics.statistics_request b]))
        b false
    /\ DataStatistics.stats_task
         (DataStatistics.mkTask (DataStatistics.statistics_request b) k).
Proof.
  intros Hdiff Hb.
  destruct (band_changed_step a Hb) as (k & Hstep & Hk).
  exists k. split; [|exact Hk].
  unfold DataStatistics.drive_step.
  cbn [DataStatistics.torn DataStatistics.held DataStatistics.shown].
  destruct (String.eqb_spec b h) as [Heq|_]; [contradiction|].
  rewrite Hstep. reflexivity.
Qed.

Lemma answered_step (a : DataStatistics.page) (h : string) (i : nat) (o : outcome)
  (t : DataStatistics.task) (g : DataStatistics.view) :
  DataStatistics.loading_stats a ->
  nth_error (DataStatistics.inflight a) i = Some t ->
  DataStatistics.render (DataStatistics.settled o (DataStatistics.state a)) = inr g ->
  DataStatistics.drive_step (DataStatistics.mkSession a h false)
                            (DataStatistics.Answered i o) =
    DataStatistics.mkSession
      (DataStatistics.mkPage (DataStatistics.settled o (DataStatistics.state a))
                             (remove_nth i (DataStatistics.inflight a))
                             (DataStatistics.sent a))
      h false.
Proof.
  intros Hf Hnth Hrender.
  unfold DataStatistics.drive_step.
  cbn [DataStatistics.torn DataStatistics.held DataStatistics.shown].
  rewrite (settle_stats i o Hf Hnth).
  unfold DataStatistics.rendered.
  cbn [DataStatistics.shown DataStatistics.state DataStatistics.held].
  rewrite Hrender. reflexivity.
Qed.

Lemma settled_stats_response (v : jsval) (s : DataStatistics.panel) :
  truthy v = true ->
  DataStatistics.settled (DataStatistics.stats_response v) s =
    DataStatistics.mkPanel v false (DataStatistics.error s).
Proof.
  intros Hv. unfold DataStatistics.settled, DataStatistics.stats_response.
  cbn. rewrite Hv. reflexivity.
Qed.

Lemma two_answers (st : DataStatistics.panel) (h : string)
  (ta tb : DataStatistics.task) (rs : list request) (va vb : jsval)
  (ga gb : DataStatistics.view) :
  DataStatistics.error st = "" ->
  DataStatistics.stats_task ta -> DataStatistics.stats_task tb ->
  truthy va = true -> truthy vb = true ->
  DataStatistics.grid va = inr ga -> DataStatistics.grid vb = inr gb ->
  DataStatistics.drive
    (DataStatistics.mkSession (DataStatistics.mkPage st [ta; tb] rs) h false)
    [DataStatistics.Answered 0 (DataStatistics.stats_response va);
     DataStatistics.Answered 0 (DataStatistics.stats_response vb)]
  = DataStatistics.mkSession
      (DataStatistics.mkPage (DataStatistics.mkPanel vb false "") [] rs) h false
  /\ DataStatistics.drive
       (DataStatistics.mkSession (DataStatistics.mkPage st [ta; tb] rs) h false)
       [DataStatistics.Answered 1 (DataStatistics.stats_response vb);
        DataStatistics.Answered 0 (DataStatistics.stats_response va)]
     = DataStatistics.mkSession
         (DataStatistics.mkPage (DataStatistics.mkPanel va false "") [] rs) h false.
Proof.
  intros Herr Hta Htb Hva Hvb Hga Hgb.
  assert (Hgrid : forall v g, truthy v = true -> DataStatistics.grid v = inr g ->
            DataStatistics.render (DataStatistics.mkPanel v false "") = inr g).
  { intros v g Hv Hg. unfold DataStatistics.render. cbn. rewrite Hv. exact Hg. }
  assert (Hsettled : forall v st', truthy v = true -> DataStatistics.error st' = "" ->
            DataStatistics.settled (DataStatistics.stats_response v) st'
            = DataStatistics.mkPanel v false "").
  { intros v st' Hv Hst'. rewrite (@settled_stats_response v st' Hv), Hst'.
    reflexivity. }
  assert (Hboth : DataStatistics.loading_stats (DataStatistics.mkPage st [ta; tb] rs))
    by (constructor; [exact Hta|constructor; [exact Htb|constructor]]).
  assert (Hone : forall st' t, DataStatistics.stats_task t ->
            DataStatistics.loading_stats (DataStatistics.mkPage st' [t] rs))
    by (intros st' t Ht; constructor; [exact Ht|constructor]).
  assert (Hlast : forall v g t, DataStatistics.stats_task t -> truthy v = true ->
            DataStatistics.grid v = inr g -> forall v0,
            DataStatistics.drive_step
              (DataStatistics.mkSession
                 (DataStatistics.mkPage (DataStatistics.mkPanel v0 false "") [t] rs)
                 h false)
              (DataStatistics.Answered 0 (DataStatistics.stats_response v))
            = DataStatistics.mkSession
                (DataStatistics.mkPage (DataStatistics.mkPanel v false "") [] rs)
                h false).
  { intros v g t Ht Hv Hg v0.
    rewrite (@answered_step
               (DataStatistics.mkPage (DataStatistics.mkPanel v0 false "") [t] rs)
               h 0 (DataStatistics.stats_response v) t g (Hone _ _ Ht) eq_refl).
    - cbn [DataStatistics.state DataStatistics.inflight DataStatistics.sent remove_nth].
      rewrite (Hsettled v (DataStatistics.mkPanel v0 false "") Hv eq_refl). reflexivity.
    - cbn [DataStatistics.state]. rewrite (Hsettled v (DataStatistics.mkPanel v0 false "") Hv eq_refl).
      exact (Hgrid _ _ Hv Hg). }
  cbn [DataStatistics.drive fold_left]. split.
  - rewrite (@answered_step (DataStatistics.mkPage st [ta; tb] rs) h 0
               (DataStatistics.stats_response va) ta ga Hboth eq_refl).
    + cbn [DataStatistics.state DataStatistics.inflight DataStatistics.sent remove_nth].
      rewrite (Hsettled va st Hva Herr). exact (Hlast vb gb tb Htb Hvb Hgb va).
    + cbn [DataStatistics.state]. rewrite (Hsettled va st Hva Herr).
      exact (Hgrid _ _ Hva Hga).
  - rewrite (@answered_step (DataStatistics.mkPage st [ta; tb] rs) h 1
               (DataStatistics.stats_response vb) tb gb Hboth eq_refl).
    + cbn [DataStatistics.state DataStatistics.inflight DataStatistics.sent remove_nth].
      rewrite (Hsettled vb st Hvb Herr). exact (Hlast va ga ta Hta Hva Hga vb).
    + cbn [DataStatistics.state]. rewrite (Hsettled vb st Hvb Herr).
      exact (Hgrid _ _ Hvb Hgb).
Qed.

(** X17.  Two selections in quick succession race: with the requests for
    two different bands both outstanding and both answered with well-formed
    statistics (four numbers), the statistics on screen in the end are those
    of the request that settled last, the second band's when the first
    band's answer arrives first, and the first band's when the second
    band's answer arrives first. *)
Theorem last_settled_statistics_win
  (s : DataStatistics.panel) (selectedBand band1 band2 : string) (v1 v2 : jsval)
  (g1 g2 : DataStatistics.view) :
  band1 <> "" -> band2 <> "" ->
  band1 <> selectedBand -> band2 <> band1 ->
  truthy v1 = true -> truthy v2 = true ->
  DataStatistics.grid v1 = inr g1 ->
  DataStatistics.grid v2 = inr g2 ->
  let pending := DataStatistics.drive (DataStatistics.begin s selectedBand)
                   [DataStatistics.Selected band1; DataStatistics.Selected band2] in
  let first_then_second :=
    DataStatistics.drive pending
      [DataStatistics.Answered 0 (DataStatistics.stats_response v1);
       DataStatistics.Answered 0 (DataStatistics.stats_response v2)] in
  let second_then_first :=
    DataStatistics.drive pending
      [DataStatistics.Answered 1 (DataStatistics.stats_response v2);
       DataStatistics.Answered 0 (DataStatistics.stats_response v1)] in
  map DataStatistics.waiting_for (DataStatistics.inflight (DataStatistics.shown pending)) =
    [mkRequest GET ("http://localhost:8000/api/statistics/" ++ band1) JUndefined json;
     mkRequest GET ("http://localhost:8000/api/statistics/" ++ band2) JUndefined json]
  /\ DataStatistics.torn first_then_second = false
  /\ DataStatistics.state (DataStatistics.shown first_then_second)
     = DataStatistics.mkPanel v2 false ""
  /\ DataStatistics.render (DataStatistics.state (DataStatistics.shown first_then_second))
     = inr g2
  /\ DataStatistics.torn second_then_first = false
  /\ DataStatistics.state (DataStatistics.shown second_then_first)
     = DataStatistics.mkPanel v1 false ""
  /\ DataStatistics.render (DataStatistics.state (DataStatistics.shown second_then_first))
     = inr g1.
Proof.
  intros Hb1 Hb2 Hd1 Hd2 H1 H2 Hg1 Hg2. cbv zeta.
  assert (Hgrid : forall v g, truthy v = true -> DataStatistics.grid v = inr g ->
            DataStatistics.render (DataStatistics.mkPanel v false "") = inr g).
  { intros v g Hv Hg. unfold DataStatistics.render. cbn. rewrite Hv. exact Hg. }
  cbn [DataStatistics.drive fold_left]. unfold DataStatistics.begin.
  destruct (selected_step (DataStatistics.idle s) Hd1 Hb1) as (k1 & E1 & Hk1).
  rewrite E1.
  destruct (selected_step
              (DataStatistics.mkPage
                 (DataStatistics.apply_action (DataStatistics.SetError "")
                    (DataStatistics.apply_action (DataStatistics.SetLoading true)
                       (DataStatistics.state (DataStatistics.idle s))))
                 (DataStatistics.inflight (DataStatistics.idle s)
                    ++ [DataStatistics.mkTask (DataStatistics.statistics_request band1) k1])
                 (DataStatistics.sent (DataStatistics.idle s)
                    ++ [DataStatistics.statistics_request band1]))
              Hd2 Hb2) as (k2 & E2 & Hk2).
  rewrite E2.
  cbn [DataStatistics.idle DataStatistics.inflight DataStatistics.sent
       DataStatistics.state List.app DataStatistics.shown].
  split; [reflexivity|].
  match goal with
  | |- context [DataStatistics.mkPage ?st [?ta; ?tb] ?rs] =>
      destruct (@two_answers st band2 ta tb rs v1 v2 g1 g2 eq_refl Hk1 Hk2 H1 H2 Hg1 Hg2)
        as [Efirst Esecond]
  end.
  cbn [DataStatistics.drive fold_left] in Efirst, Esecond.
  rewrite Efirst, Esecond.
  cbn [DataStatistics.torn DataStatistics.shown DataStatistics.state].
  repeat split; try reflexivity; [exact (Hgrid _ _ H2 Hg2)|exact (Hgrid _ _ H1 Hg1)].
Qed.

Lemma last_settled_statistics_win_witness :
  let of_b1 := JObj [("minimum", JNum 0); ("maximum", JNum 1023);
                     ("mean", JNum 212); ("std", JNum 57)] in
  let of_b2 := JObj [("minimum", JNum 180); ("maximum", JNum 330);
                     ("mean", JNum 271); ("std", JNum 19)] in
  DataStatistics.render
    (DataStatistics.state
       (DataStatistics.shown
          (DataStatistics.drive (DataStatistics.begin DataStatistics.initial_panel "")
             [DataStatistics.Selected "B1"; DataStatistics.Selected "B2";
              DataStatistics.Answered 1 (DataStatistics.stats_response of_b2);
              DataStatistics.Answered 0 (DataStatistics.stats_response of_b1)])))
  = inr (DataStatistics.StatGrid 0 1023 212 57).
Proof.
  cbv zeta.
  destruct (@last_settled_statistics_win DataStatistics.initial_panel "" "B1" "B2"
              (JObj [("minimum", JNum 0); ("maximum", JNum 1023);
                     ("mean", JNum 212); ("std", JNum 57)])
              (JObj [("minimum", JNum 180); ("maximum", JNum 330);
                     ("mean", JNum 271); ("std", JNum 19)])
              (DataStatistics.StatGrid 0 1023 212 57)
              (DataStatistics.StatGrid 180 330 271 19))
    as (_ & _ & _ & _ & _ & _ & Hshown);
    [discriminate|discriminate|discriminate|discriminate
    |reflexivity|reflexivity|reflexivity|reflexivity|].
  exact Hshown.
Defined.

Lemma number_cases (v : jsval) (name : string) :
  (exists n, field v name = JNum n /\ DataStatistics.number v name = inr n)
  \/ ((forall n, field v name <> JNum n)
      /\ exists e, DataStatistics.number v name = inl e).
Proof.
  unfold DataStatistics.number.
  destruct (field v name) eqn:Hf;
    try (right; split; [intros n0; discriminate|eexists; reflexivity]).
  left. exists n. split; reflexivity.
Qed.

(** X18.  Statistics that were stored are drawn as the grid of four numbers
    exactly when [minimum], [maximum], [mean] and [std] are all numbers;
    with any of them missing or not a number, rendering the panel throws. *)
Theorem statistics_grid_needs_numbers (p : DataStatistics.panel) :
  DataStatistics.loading p = false ->
  DataStatistics.error p = "" ->
  truthy (DataStatistics.stats p) = true ->
  (forall a b c d,
     field (DataStatistics.stats p) "minimum" = JNum a ->
     field (DataStatistics.stats p) "maximum" = JNum b ->
     field (DataStatistics.stats p) "mean" = JNum c ->
     field (DataStatistics.stats p) "std" = JNum d ->
     DataStatistics.render p = inr (DataStatistics.StatGrid a b c d))
  /\ ((exists v, DataStatistics.render p = inr v) ->
      exists a b c d,
        field (DataStatistics.stats p) "minimum" = JNum a
        /\ field (DataStatistics.stats p) "maximum" = JNum b
        /\ field (DataStatistics.stats p) "mean" = JNum c
        /\ field (DataStatistics.stats p) "std" = JNum d).
Proof.
  intros Hloading Herror Hstats.
  unfold DataStatistics.render. rewrite Hloading, Herror, Hstats. cbn [truthy String.eqb negb].
  unfold DataStatistics.grid. split.
  - intros a b c d Ha Hb Hc Hd. unfold DataStatistics.number.
    rewrite Ha, Hb, Hc, Hd. reflexivity.
  - intros (v & Hv).
    destruct (number_cases (DataStatistics.stats p) "minimum")
      as [(a & Ha & Ea)|(_ & e & Ee)]; [rewrite Ea in Hv|rewrite Ee in Hv; discriminate].
    destruct (number_cases (DataStatistics.stats p) "maximum")
      as [(b & Hb & Eb)|(_ & e & Ee)]; [rewrite Eb in Hv|rewrite Ee in Hv; discriminate].
    destruct (number_cases (DataStatistics.stats p) "mean")
      as [(c & Hc & Ec)|(_ & e & Ee)]; [rewrite Ec in Hv|rewrite Ee in Hv; discriminate].
    destruct (number_cases (DataStatistics.stats p) "std")
      as [(d & Hd & Ed)|(_ & e & Ee)]; [rewrite Ed in Hv|rewrite Ee in Hv; discriminate].
    exists a, b, c, d. repeat split; assumption.
Qed.

Lemma statistics_grid_needs_numbers_witness :
  DataStatistics.render
    (DataStatistics.mkPanel
       (JObj [("minimum", JNum 0); ("maximum", JNum 1023);
              ("mean", JNum 212); ("std", JNum 57)])
       false "")
  = inr (DataStatistics.StatGrid 0 1023 212 57).
Proof.
  apply (proj1 (@statistics_grid_needs_numbers
                  (DataStatistics.mkPanel
                     (JObj [("minimum", JNum 0); ("maximum", JNum 1023);
                            ("mean", JNum 212); ("std", JNum 57)])
                     false "")
                  eq_refl eq_refl eq_refl));
    reflexivity.
Defined.

(** X19.  A band whose conversion fails still has its statistics requested:
    the selection was recorded in shared state before the conversion was
    awaited.  After the failed run the shared selected band is the chosen
    one while reference and kind are those from before; if the band differs
    from the selection the statistics panel held, the panel issues the GET
    of [/api/statistics/<band>]; if the band was already the selection, its
    effect does not re-run and nothing is requested. *)
Theorem failed_selection_still_loads_statistics
  (be : backend) (w : world) (served : list request) (bandName : string) (e : exn)
  (p : DataStatistics.panel) :
  bandName <> "" ->
  be served (convert_request bandName) = inl e ->
  let w' := fst (fst (run be (SpectralBands.handleBandSelect bandName) w served)) in
  let x := DataStatistics.drive_step
             (DataStatistics.begin p (selectedBand (context w)))
             (DataStatistics.Selected (selectedBand (context w'))) in
  selectedBand (context w') = bandName
  /\ visualizationUrl (context w') = visualizationUrl (context w)
  /\ visualizationType (context w') = visualizationType (context w)
  /\ (selectedBand (context w) <> bandName ->
      DataStatistics.sent (DataStatistics.shown x) =
        [mkRequest GET ("http://localhost:8000/api/statistics/" ++ bandName)
                   JUndefined json])
  /\ (selectedBand (context w) = bandName ->
      DataStatistics.sent (DataStatistics.shown x) = []).
Proof.
  intros Hband Hrej. cbv zeta.
  rewrite (handleBandSelect_rejected be w served bandName Hrej).
  cbn [fst apply_action with_context context selectedBand visualizationUrl
       visualizationType].
  split; [reflexivity|]. split; [reflexivity|]. split; [reflexivity|]. split.
  - intros Hdiff. unfold DataStatistics.begin.
    destruct (@selected_step (DataStatistics.idle p) (selectedBand (context w))
                bandName (not_eq_sym Hdiff) Hband) as (k & Hstep & _).
    rewrite Hstep. reflexivity.
  - intros Hsame. unfold DataStatistics.drive_step, DataStatistics.begin.
    cbn [DataStatistics.torn DataStatistics.held].
    rewrite Hsame, String.eqb_refl. reflexivity.
Qed.

Lemma failed_selection_still_loads_statistics_witness :
  DataStatistics.sent
    (DataStatistics.shown
       (DataStatistics.drive_step
          (DataStatistics.begin DataStatistics.initial_panel "")
          (DataStatistics.Selected
             (selectedBand
                (context
                   (fst (fst (run backend_down (SpectralBands.handleBandSelect "IMG_WV")
                                initial_world []))))))))
  = [mkRequest GET "http://localhost:8000/api/statistics/IMG_WV" JUndefined json].
Proof.
  destruct (@failed_selection_still_loads_statistics backend_down initial_world []
              "IMG_WV" (mkExn "Network Error" None) DataStatistics.initial_panel)
    as (_ & _ & _ & Hchanged & _); [discriminate|reflexivity|].
  apply Hchanged. discriminate.
Defined.

Lemma stats_settled_truthy (o : outcome) (s : DataStatistics.panel) :
  truthy (DataStatistics.stats s) = true ->
  truthy (DataStatistics.stats (DataStatistics.settled o s)) = true.
Proof.
  intros Hs. destruct o as [e|r]; cbn; [exact Hs|].
  destruct (truthy (data r)); cbn; [|exact Hs].
  destruct (truthy (field (data r) "data")) eqn:Hinner; cbn; assumption.
Qed.

Lemma stats_step_truthy (a : DataStatistics.page) (ev : DataStatistics.event) :
  DataStatistics.loading_stats a ->
  truthy (DataStatistics.stats (DataStatistics.state a)) = true ->
  truthy (DataStatistics.stats (DataStatistics.state (DataStatistics.step a ev))) = true.
Proof.
  intros Hf Hs. destruct ev as [b|i o].
  - destruct (string_dec b "") as [->|Hb]; [exact Hs|].
    destruct (band_changed_step a Hb) as (k & Hstep & _). rewrite Hstep. exact Hs.
  - destruct (nth_error (DataStatistics.inflight a) i) as [t|] eqn:Hnth.
    + rewrite (settle_stats i o Hf Hnth). cbn [DataStatistics.state].
      apply stats_settled_truthy. exact Hs.
    + unfold DataStatistics.step, DataStatistics.settle. rewrite Hnth. exact Hs.
Qed.

(** X20.  Statistics are only ever replaced, never cleared: once the panel
    holds statistics, it holds some after any sequence of selection changes
    and settlements, failures included, so it never shows its prompt again. *)
Theorem statistics_never_cleared
  (s : DataStatistics.panel) (evs : list DataStatistics.event) :
  truthy (DataStatistics.stats s) = true ->
  let a := DataStatistics.run_events (DataStatistics.idle s) evs in
  truthy (DataStatistics.stats (DataStatistics.state a)) = true
  /\ DataStatistics.render (DataStatistics.state a) <> inr DataStatistics.Prompt.
Proof.
  intros Hs. cbv zeta.
  assert (Hgen : forall a,
            DataStatistics.loading_stats a ->
            truthy (DataStatistics.stats (DataStatistics.state a)) = true ->
            truthy (DataStatistics.stats
                      (DataStatistics.state (DataStatistics.run_events a evs))) = true).
  { induction evs as [|ev evs IH]; intros a Hf Ha; cbn; [exact Ha|].
    apply IH; [apply stats_step_keeps; exact Hf|apply stats_step_truthy; assumption]. }
  pose proof (Hgen _ (idle_loading_stats s) Hs) as Hfinal.
  split; [exact Hfinal|].
  unfold DataStatistics.render. rewrite Hfinal.
  destruct (DataStatistics.loading _); [discriminate|].
  destruct (truthy (JStr _)); [discriminate|].
  unfold DataStatistics.grid.
  repeat match goal with
         | |- context [match DataStatistics.number ?v ?n with _ => _ end] =>
             destruct (DataStatistics.number v n)
         end; discriminate.
Qed.

Lemma statistics_never_cleared_witness :
  truthy
    (DataStatistics.stats
       (DataStatistics.state
          (DataStatistics.run_events
             (DataStatistics.idle
                (DataStatistics.mkPanel (JObj [("minimum", JNum 0)]) false ""))
             [DataStatistics.BandChanged "IMG_VIS";
              DataStatistics.Settled 0 (inl (Error "Network Error"))])))
  = true.
Proof.
  exact (proj1 (@statistics_never_cleared
                  (DataStatistics.mkPanel (JObj [("minimum", JNum 0)]) false "")
                  [DataStatistics.BandChanged "IMG_VIS";
                   DataStatistics.Settled 0 (inl (Error "Network Error"))]
                  eq_refl)).
Defined.


